(** * Evo Wars statistics loader: [analysis/scripts/data_loader.py]

    A shallow embedding of [SimulationDataLoader] and [load_simulation].

    - Python objects produced by [json.load] are the inductive [pyval].
    - Code that may raise is written in the error monad [result]; the
      method [load_all_data], which also prints, lives in [io], an error
      monad that carries the lines written to standard output.
    - [pandas.DataFrame] is modelled by its column list and the length of
      its index.  A cell holds the Python object put into it; dtype
      inference (an int column that contains [None] is stored as floats
      with NaN) is not modelled, [PNone] is the missing marker.  What a
      numeric cell reads back as is therefore not stated: the value of a
      field is stated on the records handed to [pd.DataFrame]
      ([records_of]); row counts, column labels, the [step] column and
      the cells of a column that holds nothing but [None] are stated on
      the frame.
    - The file system, [pathlib]'s [/] and [json.loads] are parameters of
      the section [Loader]. *)

From Stdlib Require Import String Ascii List ZArith Bool Arith Lia DecimalString.
Import ListNotations.
Open Scope string_scope.
Set Warnings "-register-all".

(* ================================================================== *)
(** ** Python values and exceptions *)

Module Py.

(** The objects [json.load] builds.  A [dict] is kept as the list of its
    items in insertion order (keys are strings and pairwise distinct in a
    parsed document); a float literal [m]e[e] is kept as mantissa and
    decimal exponent, no arithmetic is ever done on it. *)
Inductive pyval : Type :=
| PNone
| PBool (b : bool)
| PInt (n : Z)
| PFloat (m e : Z)
| PStr (s : string)
| PList (l : list pyval)
| PDict (items : list (string * pyval)).

Definition pydict := list (string * pyval).

(** Exceptions, with the payload the loader can observe through
    [str(e)].  [JSONDecodeError] and [UnicodeDecodeError] are subclasses
    of [ValueError]; [str] of a [KeyError] is the [repr] of the key, which
    is what the constructor carries. *)
Inductive exn : Type :=
| ValueError (msg : string)
| JSONDecodeError (msg : string)
| UnicodeDecodeError (msg : string)
| KeyError (key_repr : string)
| IndexError (msg : string)
| TypeError
| AttributeError
| FileNotFoundError
| IsADirectoryError
| PermissionError.

Inductive result (A : Type) : Type :=
| Ok (a : A)
| Raise (e : exn).
Arguments Ok {A} a.
Arguments Raise {A} e.

Definition bind {A B} (m : result A) (k : A -> result B) : result B :=
  match m with
  | Ok a => k a
  | Raise e => Raise e
  end.

Notation "x <- m ;; k" := (bind m (fun x => k))
  (at level 61, m at next level, right associativity).
Notation "' pat <- m ;; k" := (bind m (fun x => match x with pat => k end))
  (at level 61, pat pattern, m at next level, right associativity).

(** [d.get(key)] on a dict: first item with that key. *)
Fixpoint dict_lookup (key : string) (d : pydict) : option pyval :=
  match d with
  | [] => None
  | (k, v) :: rest => if String.eqb k key then Some v else dict_lookup key rest
  end.

(** [d.get(key, default)]. *)
Definition dict_get (d : pydict) (key : string) (default : pyval) : pyval :=
  match dict_lookup key d with
  | Some v => v
  | None => default
  end.

(** [obj.get]: only a dict has the attribute. *)
Definition attr_get (obj : pyval) : result pydict :=
  match obj with
  | PDict d => Ok d
  | _ => Raise AttributeError
  end.

Definition is_str (s : string) (v : pyval) : bool :=
  match v with
  | PStr t => String.eqb t s
  | _ => false
  end.

Definition is_substring (s t : string) : bool :=
  match String.index 0 s t with
  | Some _ => true
  | None => false
  end.

(** [key in obj] for a string [key]: key membership on a dict, element
    membership on a list, substring test on a str; anything else is not a
    container. *)
Definition py_contains (key : string) (obj : pyval) : result bool :=
  match obj with
  | PDict d => Ok (match dict_lookup key d with Some _ => true | None => false end)
  | PList l => Ok (existsb (is_str key) l)
  | PStr t => Ok (is_substring key t)
  | _ => Raise TypeError
  end.

(** [obj[key]] for a string [key]. *)
Definition py_getitem_str (obj : pyval) (key : string) : result pyval :=
  match obj with
  | PDict d =>
      match dict_lookup key d with
      | Some v => Ok v
      | None => Raise (KeyError ("'" ++ key ++ "'"))
      end
  | _ => Raise TypeError
  end.

(** [repr(i)] of a non-negative int. *)
Definition repr_nat (i : nat) : string :=
  NilEmpty.string_of_uint (Nat.to_uint i).

(** [len(obj)]. *)
Definition py_len (obj : pyval) : result nat :=
  match obj with
  | PList l => Ok (List.length l)
  | PStr s => Ok (String.length s)
  | PDict d => Ok (List.length d)
  | _ => Raise TypeError
  end.

(** [obj[i]] for a non-negative int [i].  The keys of a parsed dict are
    strings, so an int subscript on a dict is always a [KeyError]. *)
Definition py_getitem (obj : pyval) (i : nat) : result pyval :=
  match obj with
  | PList l =>
      match nth_error l i with
      | Some v => Ok v
      | None => Raise (IndexError "list index out of range")
      end
  | PStr s =>
      match String.get i s with
      | Some c => Ok (PStr (String c EmptyString))
      | None => Raise (IndexError "string index out of range")
      end
  | PDict _ => Raise (KeyError (repr_nat i))
  | _ => Raise TypeError
  end.

(** The items [iter(obj)] yields: the elements of a list, the characters
    of a str, the keys of a dict. *)
Definition py_iter (obj : pyval) : result (list pyval) :=
  match obj with
  | PList l => Ok l
  | PStr s => Ok (map (fun c => PStr (String c EmptyString)) (list_ascii_of_string s))
  | PDict d => Ok (map (fun kv => PStr (fst kv)) d)
  | _ => Raise TypeError
  end.

(** [for i, x in enumerate(items): acc.append(body(i, x))], counting
    from [i]. *)
Fixpoint for_enumerate {A} (body : nat -> pyval -> result A)
    (i : nat) (items : list pyval) : result (list A) :=
  match items with
  | [] => Ok []
  | x :: rest =>
      r <- body i x ;;
      rs <- for_enumerate body (S i) rest ;;
      Ok (r :: rs)
  end.

(** [str(e)] for the classes the loader catches; [None] for a class that
    [except (ValueError, KeyError, IndexError)] lets through. *)
Definition caught (e : exn) : option string :=
  match e with
  | ValueError msg | JSONDecodeError msg | UnicodeDecodeError msg => Some msg
  | KeyError key_repr => Some key_repr
  | IndexError msg => Some msg
  | _ => None
  end.

End Py.
Import Py.

(* ================================================================== *)
(** ** The part of pandas the loader uses *)

Module Pandas.

(** A row given to the constructor: a dict in insertion order. *)
Definition record := list (string * pyval).

(** A frame: its columns in order, each with one cell per index entry,
    and the length of its index. *)
Record DataFrame : Type := mkDataFrame {
  df_columns : list (string * list pyval);
  df_len : nat
}.

(** [pd.DataFrame()] *)
Definition DataFrame_empty : DataFrame := mkDataFrame [] 0.

Fixpoint add_new (seen keys : list string) : list string :=
  match keys with
  | [] => seen
  | k :: rest =>
      add_new (if existsb (String.eqb k) seen then seen else seen ++ [k]) rest
  end.

(** Column labels of [pd.DataFrame(records)]: the keys of the records in
    order of first appearance. *)
Definition column_order (records : list record) : list string :=
  fold_left (fun seen r => add_new seen (map fst r)) records [].

(** The cell a record contributes to a column; a record without the key
    contributes the missing marker. *)
Definition record_cell (name : string) (r : record) : pyval :=
  match dict_lookup name r with
  | Some v => v
  | None => PNone
  end.

(** [pd.DataFrame(records)] for a list of dicts: one row per record, the
    cells being the objects of the records (before any dtype is
    inferred). *)
Definition DataFrame_of_records (records : list record) : DataFrame :=
  mkDataFrame
    (map (fun name => (name, map (record_cell name) records))
         (column_order records))
    (List.length records).

(** [range(n)] as cells. *)
Definition py_range (n : nat) : list pyval :=
  map (fun i => PInt (Z.of_nat i)) (seq 0 n).

Fixpoint set_column (name : string) (cells : list pyval)
    (cols : list (string * list pyval)) : list (string * list pyval) :=
  match cols with
  | [] => [(name, cells)]
  | (c, old) :: rest =>
      if String.eqb c name then (c, cells) :: rest
      else (c, old) :: set_column name cells rest
  end.

(** [df[name] = range(len(df))]: the column is replaced in place when it
    exists and appended otherwise; the index is unchanged. *)
Definition assign_range (df : DataFrame) (name : string) : DataFrame :=
  mkDataFrame (set_column name (py_range (df_len df)) (df_columns df))
              (df_len df).

(** [list(df.columns)], [df[name]] and [df[name].iloc[i]]. *)
Definition columns (df : DataFrame) : list string :=
  map fst (df_columns df).

Fixpoint find_column (name : string) (cols : list (string * list pyval))
  : option (list pyval) :=
  match cols with
  | [] => None
  | (c, cells) :: rest =>
      if String.eqb c name then Some cells else find_column name rest
  end.

Definition column (df : DataFrame) (name : string) : option (list pyval) :=
  find_column name (df_columns df).

Definition cell (df : DataFrame) (name : string) (i : nat) : option pyval :=
  match column df name with
  | Some cells => nth_error cells i
  | None => None
  end.

End Pandas.
Import Pandas.

(* ================================================================== *)
(** ** [SimulationDataLoader] *)

Record SimulationDataLoader : Type := mkLoader {
  data_dir : string
}.

(** [__init__(self, data_dir="../data")] *)
Definition SimulationDataLoader_init (dir : option string) : SimulationDataLoader :=
  mkLoader (match dir with Some d => d | None => "../data" end).

(** [data.get(key, [])[i] if i < len(data.get(key, [])) else None] *)
Definition series_at (data : pydict) (key : string) (i : nat) : result pyval :=
  n <- py_len (dict_get data key (PList [])) ;;
  if Nat.ltb i n then py_getitem (dict_get data key (PList [])) i else Ok PNone.

(** The prologue shared by the three conversions: the ['data'] guard,
    [data = stats['data']], and the items of [data.get('time', [])]. *)
Definition open_data (stats : pyval) : result (pydict * list pyval) :=
  present <- py_contains "data" stats ;;
  if negb present then Raise (ValueError "No data found in statistics")
  else
    data <- py_getitem_str stats "data" ;;
    d <- attr_get data ;;
    times <- py_iter (dict_get d "time" (PList [])) ;;
    Ok (d, times).

Definition to_population_dataframe (stats : pyval) : result DataFrame :=
  '(data, times) <- open_data stats ;;
  records <- for_enumerate (fun i time =>
      alive <- series_at data "aliveOrganisms" i ;;
      food <- series_at data "foodCount" i ;;
      energy <- series_at data "averageEnergy" i ;;
      Ok [("time", time);
          ("alive_organisms", alive);
          ("food_count", food);
          ("average_energy", energy)]) 0 times ;;
  Ok (assign_range (DataFrame_of_records records) "step").

Definition to_species_dataframe (stats : pyval) : result DataFrame :=
  '(data, times) <- open_data stats ;;
  records <- for_enumerate (fun i time =>
      species <- series_at data "speciesCount" i ;;
      top <- series_at data "topSpeciesCount" i ;;
      Ok [("time", time);
          ("species_count", species);
          ("top_species_count", top)]) 0 times ;;
  Ok (assign_range (DataFrame_of_records records) "step").

Definition to_interactions_dataframe (stats : pyval) : result DataFrame :=
  '(data, times) <- open_data stats ;;
  records <- for_enumerate (fun i time =>
      kills <- series_at data "combatKills" i ;;
      coop <- series_at data "cooperationEvents" i ;;
      genome <- series_at data "averageGenomeLength" i ;;
      Ok [("time", time);
          ("combat_kills", kills);
          ("cooperation_events", coop);
          ("average_genome_length", genome)]) 0 times ;;
  Ok (assign_range (DataFrame_of_records records) "step").

(** [stats.get('metadata', {})] *)
Definition get_metadata (stats : pyval) : result pyval :=
  d <- attr_get stats ;;
  Ok (dict_get d "metadata" (PDict [])).

(* ================================================================== *)
(** ** Reading a file, and the combined loader *)

(** What sits at a path. *)
Inductive fs_node : Type :=
| Directory
| Unreadable                      (* no read permission *)
| Undecodable (msg : string)      (* not text in the default encoding *)
| TextFile (text : string).

(** The value of [result] in [load_all_data]. *)
Record bundle : Type := mkBundle {
  population : DataFrame;
  species : DataFrame;
  interactions : DataFrame;
  metadata : pyval
}.

(** Code that prints and may raise: the lines printed so far, and the
    outcome. *)
Definition io (A : Type) : Type := (list string * result A)%type.

Definition io_bind {A B} (m : io A) (k : A -> io B) : io B :=
  match m with
  | (out, Ok a) => let '(out', r) := k a in ((out ++ out')%list, r)
  | (out, Raise e) => (out, Raise e)
  end.

Definition io_lift {A} (m : result A) : io A := ([], m).

Notation "x <~ m ;; k" := (io_bind m (fun x => k))
  (at level 61, m at next level, right associativity).

(** One [try: ... except (ValueError, KeyError, IndexError) as e:] block
    of [load_all_data]; [table] is the name in the warning. *)
Definition attempt (table : string) (m : result DataFrame) : io DataFrame :=
  match m with
  | Ok df => ([], Ok df)
  | Raise e =>
      match caught e with
      | Some msg =>
          (["Warning: Could not load " ++ table ++ " data: " ++ msg],
           Ok DataFrame_empty)
      | None => ([], Raise e)
      end
  end.

Section Loader.

(** [Path(data_dir) / filename] *)
Variable joinpath : string -> string -> string.
(** The file system: [None] where nothing exists. *)
Variable fs : string -> option fs_node.
(** [json.loads]: the parsed document, or the message of the
    [JSONDecodeError]. *)
Variable json_loads : string -> string + pyval.

(** [open(filepath, 'r')] followed by [f.read()] *)
Definition read_text (filepath : string) : result string :=
  match fs filepath with
  | None => Raise FileNotFoundError
  | Some Directory => Raise IsADirectoryError
  | Some Unreadable => Raise PermissionError
  | Some (Undecodable msg) => Raise (UnicodeDecodeError msg)
  | Some (TextFile text) => Ok text
  end.

Definition load_statistics (self : SimulationDataLoader) (filename : string)
  : result pyval :=
  let filepath := joinpath (data_dir self) filename in
  text <- read_text filepath ;;
  match json_loads text with
  | inr doc => Ok doc
  | inl msg => Raise (JSONDecodeError msg)
  end.

Definition load_all_data (self : SimulationDataLoader) (filename : string)
  : io bundle :=
  stats <~ io_lift (load_statistics self filename) ;;
  pop <~ attempt "population" (to_population_dataframe stats) ;;
  spe <~ attempt "species" (to_species_dataframe stats) ;;
  int <~ attempt "interactions" (to_interactions_dataframe stats) ;;
  meta <~ io_lift (get_metadata stats) ;;
  io_lift (Ok (mkBundle pop spe int meta)).

(** [load_simulation(filename, data_dir="../data")] *)
Definition load_simulation (filename : string) (dir : option string) : io bundle :=
  let loader := SimulationDataLoader_init dir in
  load_all_data loader filename.

End Loader.

(* ================================================================== *)
(** ** The projection algorithm, once

    The three conversions differ only in the series they read and the
    names they give them. *)

Definition population_fields : list (string * string) :=
  [("alive_organisms", "aliveOrganisms");
   ("food_count", "foodCount");
   ("average_energy", "averageEnergy")].

Definition species_fields : list (string * string) :=
  [("species_count", "speciesCount");
   ("top_species_count", "topSpeciesCount")].

Definition interactions_fields : list (string * string) :=
  [("combat_kills", "combatKills");
   ("cooperation_events", "cooperationEvents");
   ("average_genome_length", "averageGenomeLength")].

Fixpoint read_fields (data : pydict) (fields : list (string * string)) (i : nat)
  : result record :=
  match fields with
  | [] => Ok []
  | (out, key) :: rest =>
      v <- series_at data key i ;;
      cells <- read_fields data rest i ;;
      Ok ((out, v) :: cells)
  end.

(** One row: the time, then the requested fields. *)
Definition build_row (data : pydict) (fields : list (string * string))
    (i : nat) (time : pyval) : result record :=
  cells <- read_fields data fields i ;;
  Ok (("time", time) :: cells).

Definition project (fields : list (string * string)) (stats : pyval)
  : result DataFrame :=
  '(data, times) <- open_data stats ;;
  records <- for_enumerate (build_row data fields) 0 times ;;
  Ok (assign_range (DataFrame_of_records records) "step").

(** The list [records] as it stands when a conversion reaches
    [pd.DataFrame(records)]: the guard and the loop, without the frame. *)
Definition records_of (fields : list (string * string)) (stats : pyval)
  : result (list record) :=
  '(data, times) <- open_data stats ;;
  for_enumerate (build_row data fields) 0 times.

(** The three conversions, each with its table of fields. *)
Definition projections : list ((pyval -> result DataFrame) * list (string * string)) :=
  [(to_population_dataframe, population_fields);
   (to_species_dataframe, species_fields);
   (to_interactions_dataframe, interactions_fields)].

(** The series a field is read from: first entry with that output name. *)
Fixpoint field_key (fields : list (string * string)) (out : string) : option string :=
  match fields with
  | [] => None
  | (o, key) :: rest => if String.eqb o out then Some key else field_key rest out
  end.

Definition is_array (v : pyval) : bool :=
  match v with
  | PList _ => true
  | _ => false
  end.

(** Every series the fields read is a JSON array, or absent. *)
Definition arrays (data : pydict) (fields : list (string * string)) : bool :=
  forallb (fun f => is_array (dict_get data (snd f) (PList []))) fields.

Definition all_fields : list (string * string) :=
  population_fields ++ species_fields ++ interactions_fields.

(** Two values of a series that a table of [n] rows cannot tell apart. *)
Definition same_prefix (n : nat) (v v' : pyval) : Prop :=
  v = v' \/
  exists xs xs', v = PList xs /\ v' = PList xs' /\ firstn n xs = firstn n xs'.

(** The classes named in [except (ValueError, KeyError, IndexError)],
    subclasses included. *)
Definition downgraded_kind (e : exn) : bool :=
  match e with
  | ValueError _ | JSONDecodeError _ | UnicodeDecodeError _
  | KeyError _ | IndexError _ => true
  | _ => false
  end.

(* ================================================================== *)
(** ** Sample documents and a sample world *)

Module Samples.

Definition ints (l : list Z) : pyval := PList (map PInt l).

(** [{"data": {"time": [0,1,2], "aliveOrganisms": [10,9]}}] *)
Definition ragged : pydict :=
  [("data", PDict [("time", ints [0; 1; 2]%Z);
                   ("aliveOrganisms", ints [10; 9]%Z)])].

(** [{"data": {"time": [0,1], "aliveOrganisms": [5], "foodCount": null,
      "speciesCount": null, "combatKills": null}}] *)
Definition null_series : pydict :=
  [("data", PDict [("time", ints [0; 1]%Z);
                   ("aliveOrganisms", ints [5]%Z);
                   ("foodCount", PNone);
                   ("speciesCount", PNone);
                   ("combatKills", PNone)])].

(** [{"data": {}}] and [{"data": {"time": []}}] *)
Definition no_time : pydict := [("data", PDict [])].
Definition empty_time : pydict := [("data", PDict [("time", PList [])])].

(** [{"data": {"time": [0,1], "foodCount": [7,8,9,10]}}] and the same
    with [foodCount] cut to two elements. *)
Definition long_series : pydict :=
  [("data", PDict [("time", ints [0; 1]%Z);
                   ("foodCount", ints [7; 8; 9; 10]%Z)])].
Definition cut_series : pydict :=
  [("data", PDict [("time", ints [0; 1]%Z);
                   ("foodCount", ints [7; 8]%Z)])].

(** [{"metadata": {"seed": 7}}]: no ['data'] key. *)
Definition no_data : pydict :=
  [("metadata", PDict [("seed", PInt 7)])].

(** [{"data": 5}] and [{"data": {"time": 5}}] *)
Definition data_not_mapping : pydict := [("data", PInt 5)].
Definition time_not_sequence : pydict := [("data", PDict [("time", PInt 5)])].

(** [{"data": {"time": [0], "speciesCount": {"a": 1}}}]: an int subscript
    on a dict. *)
Definition dict_series : pydict :=
  [("data", PDict [("time", ints [0]%Z);
                   ("speciesCount", PDict [("a", PInt 1)])])].

(** A world with a handful of files under [../data]. *)
Definition joinpath (dir name : string) : string := dir ++ "/" ++ name.

Definition fs (path : string) : option fs_node :=
  if String.eqb path "../data/ragged.json" then Some (TextFile "ragged")
  else if String.eqb path "../data/no_data.json" then Some (TextFile "no_data")
  else if String.eqb path "../data/broken.json" then Some (TextFile "{")
  else if String.eqb path "../data/data5.json" then Some (TextFile "data5")
  else if String.eqb path "../data/time5.json" then Some (TextFile "time5")
  else if String.eqb path "../data/dict_series.json" then Some (TextFile "dict_series")
  else None.

(** A stand-in for the parser that knows the texts above by name. *)
Definition json_loads (text : string) : string + pyval :=
  if String.eqb text "ragged" then inr (PDict ragged)
  else if String.eqb text "no_data" then inr (PDict no_data)
  else if String.eqb text "data5" then inr (PDict data_not_mapping)
  else if String.eqb text "time5" then inr (PDict time_not_sequence)
  else if String.eqb text "dict_series" then inr (PDict dict_series)
  else inl "Expecting property name enclosed in double quotes".

Definition loader : SimulationDataLoader := SimulationDataLoader_init None.

End Samples.

(** More documents, and a second world whose files do not all hold a JSON
    object. *)
Module MoreSamples.

(** [{"data": {"time": [], "foodCount": null}}] *)
Definition null_series_no_rows : pydict :=
  [("data", PDict [("time", PList []); ("foodCount", PNone)])].

(** [{"metadata": {"seed": 7}, "data": {"time": [0,1,2],
      "aliveOrganisms": [10,9], "speciesCount": null}}] *)
Definition ragged_with_more : pydict :=
  [("metadata", PDict [("seed", PInt 7)]);
   ("data", PDict [("time", Samples.ints [0; 1; 2]%Z);
                   ("aliveOrganisms", Samples.ints [10; 9]%Z);
                   ("speciesCount", PNone)])].

(** [[1, 2]] and [["data"]]: the top level is a JSON array. *)
Definition top_level_list : pyval := PList [PInt 1; PInt 2].
Definition top_level_list_with_data : pyval := PList [PStr "data"].

Definition fs (path : string) : option fs_node :=
  if String.eqb path "runs/list.json" then Some (TextFile "list")
  else if String.eqb path "runs/list_data.json" then Some (TextFile "list_data")
  else if String.eqb path "runs/ragged.json" then Some (TextFile "ragged")
  else if String.eqb path "runs/dict_series.json" then Some (TextFile "dict_series")
  else if String.eqb path "runs/data5.json" then Some (TextFile "data5")
  else None.

Definition json_loads (text : string) : string + pyval :=
  if String.eqb text "list" then inr top_level_list
  else if String.eqb text "list_data" then inr top_level_list_with_data
  else if String.eqb text "ragged" then inr (PDict Samples.ragged)
  else if String.eqb text "dict_series" then inr (PDict Samples.dict_series)
  else if String.eqb text "data5" then inr (PDict Samples.data_not_mapping)
  else inl "Expecting value".

Definition loader : SimulationDataLoader := SimulationDataLoader_init (Some "runs").

End MoreSamples.

(* ================================================================== *)
(** ** The three conversions are instances of [project] *)

Lemma for_enumerate_ext {A} (f g : nat -> pyval -> result A) items :
  forall i,
  (forall j x, i <= j < i + List.length items -> f j x = g j x) ->
  for_enumerate f i items = for_enumerate g i items.
Proof.
  induction items as [|x rest IH]; intros i Hfg; simpl.
  - reflexivity.
  - rewrite Hfg by (simpl; lia).
    rewrite (IH (S i)); [reflexivity|].
    intros j y Hj. apply Hfg. simpl. lia.
Qed.

Ltac by_project :=
  unfold project, to_population_dataframe, to_species_dataframe,
    to_interactions_dataframe;
  match goal with
  | |- bind ?m _ = bind ?m _ => destruct m as [[data times]|e]; simpl; [|reflexivity]
  end;
  erewrite for_enumerate_ext; [reflexivity|];
  intros i x _; unfold build_row; simpl;
  repeat match goal with
  | |- context [series_at ?d ?k ?i] => destruct (series_at d k i); simpl; try reflexivity
  end.

Lemma population_is_project stats :
  to_population_dataframe stats = project population_fields stats.
Proof. by_project. Qed.

Lemma species_is_project stats :
  to_species_dataframe stats = project species_fields stats.
Proof. by_project. Qed.

Lemma interactions_is_project stats :
  to_interactions_dataframe stats = project interactions_fields stats.
Proof. by_project. Qed.

Lemma projections_are_project P fields stats :
  In (P, fields) projections -> P stats = project fields stats.
Proof.
  intros [H|[H|[H|[]]]]; inversion H; subst.
  - apply population_is_project.
  - apply species_is_project.
  - apply interactions_is_project.
Qed.

(* ================================================================== *)
(** ** Frames built from records *)

Lemma existsb_eqb_In k l : existsb (String.eqb k) l = true <-> In k l.
Proof.
  rewrite existsb_exists. split.
  - intros [x [Hin Heq]]. apply String.eqb_eq in Heq. subst. exact Hin.
  - intros Hin. exists k. split; [exact Hin|apply String.eqb_refl].
Qed.

Lemma add_new_keeps seen keys k : In k seen -> In k (add_new seen keys).
Proof.
  revert seen. induction keys as [|x rest IH]; intros seen Hin; simpl.
  - exact Hin.
  - apply IH. destruct (existsb (String.eqb x) seen); [exact Hin|].
    apply in_or_app. left. exact Hin.
Qed.

Lemma add_new_adds seen keys k : In k keys -> In k (add_new seen keys).
Proof.
  revert seen. induction keys as [|x rest IH]; intros seen Hin; simpl.
  - destruct Hin.
  - destruct Hin as [->|Hin]; [|apply IH; exact Hin].
    apply add_new_keeps.
    destruct (existsb (String.eqb k) seen) eqn:E.
    + apply existsb_eqb_In. exact E.
    + apply in_or_app. right. left. reflexivity.
Qed.

Lemma add_new_known seen keys :
  (forall k, In k keys -> In k seen) -> add_new seen keys = seen.
Proof.
  induction keys as [|x rest IH]; intros Hsub; simpl.
  - reflexivity.
  - assert (E : existsb (String.eqb x) seen = true)
      by (apply existsb_eqb_In, Hsub; left; reflexivity).
    rewrite E. apply IH. intros k Hk. apply Hsub. right. exact Hk.
Qed.

(** Records that all carry the same keys give those keys as columns, and
    no column at all when there is no record. *)
Lemma column_order_uniform names (records : list record) :
  Forall (fun r => map fst r = names) records ->
  column_order records = match records with [] => [] | _ => add_new [] names end.
Proof.
  unfold column_order. intros Hall.
  destruct records as [|r rest]; [reflexivity|].
  inversion Hall as [|? ? Hr Hrest]; subst. simpl.
  clear Hall. induction rest as [|r' rest IH]; simpl.
  - reflexivity.
  - inversion Hrest as [|? ? Hr' Hrest']; subst.
    rewrite Hr', add_new_known.
    + apply IH. exact Hrest'.
    + intros k Hk. apply add_new_adds. exact Hk.
Qed.

Lemma find_column_set_same name cells cols :
  find_column name (set_column name cells cols) = Some cells.
Proof.
  induction cols as [|[c old] rest IH]; simpl.
  - rewrite String.eqb_refl. reflexivity.
  - destruct (String.eqb c name) eqn:E; simpl; rewrite E; [reflexivity|exact IH].
Qed.

Lemma find_column_set_other name other cells cols :
  String.eqb other name = false ->
  find_column name (set_column other cells cols) = find_column name cols.
Proof.
  intros Hne. induction cols as [|[c old] rest IH]; simpl.
  - rewrite Hne. reflexivity.
  - destruct (String.eqb c other) eqn:E; simpl.
    + apply String.eqb_eq in E. subst c. rewrite Hne. reflexivity.
    + rewrite IH. reflexivity.
Qed.

Lemma find_column_map (g : string -> list pyval) name order :
  find_column name (map (fun nm => (nm, g nm)) order) =
  if existsb (String.eqb name) order then Some (g name) else None.
Proof.
  induction order as [|c rest IH]; simpl.
  - reflexivity.
  - rewrite (String.eqb_sym name c).
    destruct (String.eqb c name) eqn:E; simpl.
    + apply String.eqb_eq in E. subst c. reflexivity.
    + exact IH.
Qed.

Lemma columns_set_column name cells cols :
  map fst (set_column name cells cols) =
  if existsb (String.eqb name) (map fst cols) then map fst cols
  else (map fst cols ++ [name])%list.
Proof.
  induction cols as [|[c old] rest IH]; simpl.
  - reflexivity.
  - rewrite (String.eqb_sym name c).
    destruct (String.eqb c name) eqn:E; simpl.
    + reflexivity.
    + rewrite IH. destruct (existsb (String.eqb name) (map fst rest)); reflexivity.
Qed.

Lemma dict_lookup_cons key k v rest :
  dict_lookup key ((k, v) :: rest) =
  if String.eqb k key then Some v else dict_lookup key rest.
Proof. reflexivity. Qed.

Section Frames.

Variable names : list string.
Variable records : list record.
Hypothesis uniform : Forall (fun r => map fst r = names) records.

Let frame := assign_range (DataFrame_of_records records) "step".

Lemma frame_len : df_len frame = List.length records.
Proof. reflexivity. Qed.

Lemma frame_step : column frame "step" = Some (py_range (List.length records)).
Proof. apply find_column_set_same. Qed.

Lemma frame_columns :
  columns frame =
  match records with
  | [] => ["step"]
  | _ => if existsb (String.eqb "step") (add_new [] names) then add_new [] names
         else (add_new [] names ++ ["step"])%list
  end.
Proof.
  unfold columns, frame, assign_range, DataFrame_of_records. simpl.
  rewrite columns_set_column, map_map. simpl. rewrite map_id.
  rewrite (column_order_uniform names records uniform).
  destruct records; reflexivity.
Qed.

Lemma frame_cell name i :
  String.eqb "step" name = false ->
  In name names ->
  cell frame name i = option_map (record_cell name) (nth_error records i).
Proof.
  intros Hstep Hin. unfold cell, column, frame, assign_range, DataFrame_of_records.
  simpl. rewrite find_column_set_other by exact Hstep.
  rewrite find_column_map, (column_order_uniform names records uniform).
  destruct records as [|r rest] eqn:E.
  - simpl. destruct i; reflexivity.
  - rewrite <- E.
    assert (Hex : existsb (String.eqb name) (add_new [] names) = true)
      by (apply existsb_eqb_In, add_new_adds, Hin).
    rewrite Hex. apply nth_error_map.
Qed.

End Frames.

(* ================================================================== *)
(** ** What the loop builds *)

Lemma read_fields_names data fields i cells :
  read_fields data fields i = Ok cells -> map fst cells = map fst fields.
Proof.
  revert cells. induction fields as [|[out key] rest IH]; intros cells H; simpl in H.
  - inversion H. reflexivity.
  - destruct (series_at data key i) as [v|e]; simpl in H; [|discriminate].
    destruct (read_fields data rest i) as [cs|e]; simpl in H; [|discriminate].
    inversion H. simpl. f_equal. apply IH. reflexivity.
Qed.

Lemma read_fields_lookup data fields i cells out key :
  read_fields data fields i = Ok cells ->
  field_key fields out = Some key ->
  exists v, series_at data key i = Ok v /\ dict_lookup out cells = Some v.
Proof.
  revert cells. induction fields as [|[o k] rest IH]; intros cells H Hkey; simpl in *.
  - discriminate.
  - destruct (series_at data k i) as [v|e] eqn:Ev; simpl in H; [|discriminate].
    destruct (read_fields data rest i) as [cs|e]; simpl in H; [|discriminate].
    inversion H; subst cells. simpl.
    destruct (String.eqb o out) eqn:E.
    + inversion Hkey; subst k. exists v. split; [exact Ev|reflexivity].
    + apply IH; [reflexivity|exact Hkey].
Qed.

Lemma field_key_In fields out key :
  field_key fields out = Some key -> In out (map fst fields).
Proof.
  induction fields as [|[o k] rest IH]; simpl; intros H.
  - discriminate.
  - destruct (String.eqb o out) eqn:E.
    + left. apply String.eqb_eq. exact E.
    + right. apply IH. exact H.
Qed.

(** A loop that ends normally has built one record per item, each by
    [build_row] at the item's position. *)
Lemma for_enumerate_rows data fields items :
  forall i records,
  for_enumerate (build_row data fields) i items = Ok records ->
  List.length records = List.length items /\
  Forall (fun r => map fst r = "time" :: map fst fields) records /\
  forall j, j < List.length items ->
    exists t cells,
      nth_error items j = Some t /\
      read_fields data fields (i + j) = Ok cells /\
      nth_error records j = Some (("time", t) :: cells).
Proof.
  induction items as [|x rest IH]; intros i records H; simpl in H.
  - inversion H. simpl. repeat split; [constructor|intros j Hj; lia].
  - unfold build_row in H at 1.
    destruct (read_fields data fields i) as [cells|e] eqn:Ec; simpl in H; [|discriminate].
    destruct (for_enumerate (build_row data fields) (S i) rest) as [rs|e] eqn:Er;
      simpl in H; [|discriminate].
    inversion H; subst records. clear H.
    destruct (IH _ _ Er) as [Hlen [Hnames Hrows]].
    repeat split.
    + simpl. rewrite Hlen. reflexivity.
    + constructor; [|exact Hnames].
      simpl. f_equal. eapply read_fields_names. exact Ec.
    + intros [|j] Hj.
      * exists x, cells. rewrite Nat.add_0_r. repeat split; [exact Ec].
      * simpl in Hj. destruct (Hrows j) as [t [cs [Ht [Hc Hr]]]]; [lia|].
        exists t, cs. rewrite Nat.add_succ_r. simpl. auto.
Qed.

Lemma open_data_mapping kvs data ts :
  dict_lookup "data" kvs = Some (PDict data) ->
  dict_get data "time" (PList []) = PList ts ->
  open_data (PDict kvs) = Ok (data, ts).
Proof.
  intros Hdata Htime. unfold open_data. simpl. rewrite Hdata. simpl.
  rewrite Htime. reflexivity.
Qed.

Lemma project_records fields kvs data ts df :
  dict_lookup "data" kvs = Some (PDict data) ->
  dict_get data "time" (PList []) = PList ts ->
  project fields (PDict kvs) = Ok df ->
  exists records,
    for_enumerate (build_row data fields) 0 ts = Ok records /\
    df = assign_range (DataFrame_of_records records) "step".
Proof.
  intros Hdata Htime H. unfold project in H.
  rewrite (open_data_mapping _ _ _ Hdata Htime) in H. simpl in H.
  destruct (for_enumerate (build_row data fields) 0 ts) as [records|e];
    simpl in H; [|discriminate].
  inversion H. exists records. split; reflexivity.
Qed.

(* ================================================================== *)
(** ** The table a projection returns *)

Section Table.

Variables (fields : list (string * string)) (kvs data : pydict) (ts : list pyval).
Hypothesis Hdata : dict_lookup "data" kvs = Some (PDict data).
Hypothesis Htime : dict_get data "time" (PList []) = PList ts.

Lemma table_len df :
  project fields (PDict kvs) = Ok df -> df_len df = List.length ts.
Proof.
  intros H. destruct (project_records _ _ _ _ _ Hdata Htime H) as [records [Hr ->]].
  destruct (for_enumerate_rows _ _ _ _ _ Hr) as [Hlen _].
  rewrite frame_len. exact Hlen.
Qed.

Lemma table_step df :
  project fields (PDict kvs) = Ok df ->
  column df "step" = Some (py_range (List.length ts)).
Proof.
  intros H. destruct (project_records _ _ _ _ _ Hdata Htime H) as [records [Hr ->]].
  destruct (for_enumerate_rows _ _ _ _ _ Hr) as [Hlen _].
  rewrite frame_step, Hlen. reflexivity.
Qed.

Lemma table_columns df :
  project fields (PDict kvs) = Ok df ->
  columns df =
  match ts with
  | [] => ["step"]
  | _ => let names := add_new [] ("time" :: map fst fields) in
         if existsb (String.eqb "step") names then names
         else (names ++ ["step"])%list
  end.
Proof.
  intros H. destruct (project_records _ _ _ _ _ Hdata Htime H) as [records [Hr ->]].
  destruct (for_enumerate_rows _ _ _ _ _ Hr) as [Hlen [Hnames _]].
  rewrite (frame_columns _ _ Hnames).
  destruct records, ts; simpl in Hlen; try discriminate; reflexivity.
Qed.

Lemma table_time df i :
  project fields (PDict kvs) = Ok df -> cell df "time" i = nth_error ts i.
Proof.
  intros H. destruct (project_records _ _ _ _ _ Hdata Htime H) as [records [Hr ->]].
  destruct (for_enumerate_rows _ _ _ _ _ Hr) as [Hlen [Hnames Hrows]].
  rewrite (frame_cell _ _ Hnames) by (reflexivity || (left; reflexivity)).
  destruct (Nat.lt_ge_cases i (List.length ts)) as [Hi|Hi].
  - destruct (Hrows i Hi) as [t [cells [Ht [_ Hrec]]]].
    rewrite Hrec, Ht. reflexivity.
  - assert (E1 : nth_error records i = None) by (apply nth_error_None; lia).
    assert (E2 : nth_error ts i = None) by (apply nth_error_None; lia).
    rewrite E1, E2. reflexivity.
Qed.

(** A field's cell in row [i] is what the bounds-checked read of its
    series gave at [i]; there is no cell past the last row. *)
Lemma table_cell df out key i :
  project fields (PDict kvs) = Ok df ->
  field_key fields out = Some key ->
  String.eqb "step" out = false ->
  String.eqb "time" out = false ->
  (i < List.length ts ->
     exists v, series_at data key i = Ok v /\ cell df out i = Some v) /\
  (List.length ts <= i -> cell df out i = None).
Proof.
  intros H Hkey Hstep Htimeout.
  destruct (project_records _ _ _ _ _ Hdata Htime H) as [records [Hr ->]].
  destruct (for_enumerate_rows _ _ _ _ _ Hr) as [Hlen [Hnames Hrows]].
  rewrite (frame_cell _ _ Hnames)
    by (try exact Hstep; right; eapply field_key_In; exact Hkey).
  split; intros Hi.
  - destruct (Hrows i Hi) as [t [cells [_ [Hc Hrec]]]]. simpl in Hc.
    destruct (read_fields_lookup _ _ _ _ _ _ Hc Hkey) as [v [Hv Hl]].
    exists v. split; [exact Hv|].
    rewrite Hrec. unfold option_map, record_cell.
    rewrite dict_lookup_cons, Htimeout, Hl. reflexivity.
  - assert (E : nth_error records i = None) by (apply nth_error_None; lia).
    rewrite E. reflexivity.
Qed.

End Table.

(** The bounds-checked read on an array: the element, or the missing
    marker past the end; it never raises. *)
Lemma series_at_array data key xs i :
  dict_get data key (PList []) = PList xs ->
  series_at data key i =
  Ok (match nth_error xs i with Some v => v | None => PNone end).
Proof.
  intros H. unfold series_at. rewrite H. simpl.
  destruct (Nat.ltb_spec i (List.length xs)) as [Hi|Hi].
  - destruct (nth_error xs i) eqn:E; [reflexivity|].
    apply nth_error_None in E. lia.
  - assert (E : nth_error xs i = None) by (apply nth_error_None; exact Hi).
    rewrite E. reflexivity.
Qed.

Lemma is_array_inv v : is_array v = true -> exists xs, v = PList xs.
Proof. destruct v; try discriminate. intros _. eexists. reflexivity. Qed.

Lemma read_fields_arrays data fields i :
  arrays data fields = true -> exists cells, read_fields data fields i = Ok cells.
Proof.
  induction fields as [|[out key] rest IH]; simpl; intros H.
  - eexists. reflexivity.
  - apply andb_prop in H. destruct H as [Ha Hrest].
    destruct (is_array_inv _ Ha) as [xs Hxs].
    destruct (IH Hrest) as [cells Hc].
    rewrite (series_at_array _ _ _ _ Hxs), Hc. simpl. eexists. reflexivity.
Qed.

Lemma for_enumerate_arrays data fields items :
  arrays data fields = true ->
  forall i, exists records, for_enumerate (build_row data fields) i items = Ok records.
Proof.
  intros Harr. induction items as [|x rest IH]; intros i; simpl.
  - eexists. reflexivity.
  - unfold build_row at 1.
    destruct (read_fields_arrays data fields i Harr) as [cells ->].
    destruct (IH (S i)) as [rs ->]. simpl. eexists. reflexivity.
Qed.

(** With arrays (or nothing) under every requested name, the projection
    returns a table. *)
Lemma project_succeeds fields kvs data ts :
  dict_lookup "data" kvs = Some (PDict data) ->
  dict_get data "time" (PList []) = PList ts ->
  arrays data fields = true ->
  exists df, project fields (PDict kvs) = Ok df.
Proof.
  intros Hdata Htime Harr. unfold project.
  rewrite (open_data_mapping _ _ _ Hdata Htime). simpl.
  destruct (for_enumerate_arrays data fields ts Harr 0) as [records ->].
  simpl. eexists. reflexivity.
Qed.

(* ================================================================== *)
(** ** Properties of the projections *)

(** Every field of every conversion is found under its own output name,
    which is neither ["time"] nor ["step"]. *)
Lemma requested_field P fields out key :
  In (P, fields) projections ->
  In (out, key) fields ->
  field_key fields out = Some key /\
  String.eqb "step" out = false /\
  String.eqb "time" out = false.
Proof.
  intros [H|[H|[H|[]]]]; inversion H; subst; clear H; simpl; intros Hin;
    repeat (destruct Hin as [Hin|Hin]; [inversion Hin; subst; repeat split|]);
    destruct Hin.
Qed.

Lemma arrays_app data f g :
  arrays data (f ++ g) = arrays data f && arrays data g.
Proof. apply forallb_app. Qed.

Lemma arrays_all data P fields :
  In (P, fields) projections ->
  arrays data all_fields = true -> arrays data fields = true.
Proof.
  unfold all_fields. rewrite !arrays_app.
  intros HP H. apply andb_prop in H. destruct H as [H1 H].
  apply andb_prop in H. destruct H as [H2 H3].
  destruct HP as [E|[E|[E|[]]]]; inversion E; subst; assumption.
Qed.

(* ================================================================== *)
(** ** The records a conversion builds

    What a cell of the returned frame reads back as depends on the dtype
    pandas infers for its column; what the conversion puts into the
    records does not.  Statements about the values of a field are made on
    the records. *)

Lemma conversion_frames_its_records P fields stats :
  In (P, fields) projections ->
  P stats =
  (records <- records_of fields stats ;;
   Ok (assign_range (DataFrame_of_records records) "step")).
Proof.
  intros HP. rewrite (projections_are_project _ _ _ HP).
  unfold project, records_of.
  destruct (open_data stats) as [[data times]|e]; reflexivity.
Qed.

Lemma records_of_mapping fields kvs data ts :
  dict_lookup "data" kvs = Some (PDict data) ->
  dict_get data "time" (PList []) = PList ts ->
  records_of fields (PDict kvs) = for_enumerate (build_row data fields) 0 ts.
Proof.
  intros Hdata Htime. unfold records_of.
  rewrite (open_data_mapping _ _ _ Hdata Htime). reflexivity.
Qed.

Lemma records_of_rows fields kvs data ts records :
  dict_lookup "data" kvs = Some (PDict data) ->
  dict_get data "time" (PList []) = PList ts ->
  records_of fields (PDict kvs) = Ok records ->
  List.length records = List.length ts /\
  forall i, i < List.length ts ->
    exists t cells,
      nth_error ts i = Some t /\
      read_fields data fields i = Ok cells /\
      nth_error records i = Some (("time", t) :: cells).
Proof.
  intros Hdata Htime H. rewrite (records_of_mapping _ _ _ _ Hdata Htime) in H.
  destruct (for_enumerate_rows _ _ _ _ _ H) as [Hlen [_ Hrows]].
  split; [exact Hlen|]. intros i Hi. exact (Hrows i Hi).
Qed.

Lemma records_of_succeeds fields kvs data ts :
  dict_lookup "data" kvs = Some (PDict data) ->
  dict_get data "time" (PList []) = PList ts ->
  arrays data fields = true ->
  exists records, records_of fields (PDict kvs) = Ok records.
Proof.
  intros Hdata Htime Harr. rewrite (records_of_mapping _ _ _ _ Hdata Htime).
  apply for_enumerate_arrays. exact Harr.
Qed.

Lemma nth_error_or_none (xs : list pyval) i :
  match nth_error xs i with Some v => v | None => PNone end = nth i xs PNone.
Proof.
  destruct (nth_error xs i) eqn:E.
  - symmetry. apply nth_error_nth. exact E.
  - symmetry. apply nth_overflow. apply nth_error_None. exact E.
Qed.

(** The value a record holds in a field: the element of the field's
    series at the record's position, [None] when there is none. *)
Lemma record_field data fields i cells t out key xs :
  read_fields data fields i = Ok cells ->
  field_key fields out = Some key ->
  String.eqb "time" out = false ->
  dict_get data key (PList []) = PList xs ->
  dict_lookup out (("time", t) :: cells) = Some (nth i xs PNone).
Proof.
  intros Hc Hkey Hnot_time Hxs.
  destruct (read_fields_lookup _ _ _ _ _ _ Hc Hkey) as [v [Hv Hl]].
  rewrite (series_at_array _ _ _ _ Hxs), nth_error_or_none in Hv.
  inversion Hv; subst v.
  rewrite dict_lookup_cons, Hnot_time. exact Hl.
Qed.

(** C1 (as amended).  For a document whose ['data'] mapping holds an array
    (or nothing) under ['time'] and under every series a conversion
    requests, that conversion returns a table with one row per element of
    ['time'], and the [step] column is [0, 1, ..., n-1] in row order. *)
Theorem rows_and_step_of_arrays P fields kvs data ts
    (HP : In (P, fields) projections)
    (Hdata : dict_lookup "data" kvs = Some (PDict data))
    (Htime : dict_get data "time" (PList []) = PList ts)
    (Harr : arrays data fields = true) :
  exists df,
    P (PDict kvs) = Ok df /\
    df_len df = List.length ts /\
    column df "step" = Some (py_range (List.length ts)).
Proof.
  rewrite (projections_are_project _ _ _ HP).
  destruct (project_succeeds _ _ _ _ Hdata Htime Harr) as [df Hdf].
  exists df. split; [exact Hdf|]. split.
  - eapply table_len; eassumption.
  - eapply table_step; eassumption.
Qed.

Lemma rows_and_step_of_arrays_witness :
  exists df,
    to_population_dataframe (PDict Samples.ragged) = Ok df /\
    df_len df = 3 /\
    column df "step" = Some [PInt 0; PInt 1; PInt 2].
Proof.
  apply (rows_and_step_of_arrays to_population_dataframe population_fields
           Samples.ragged
           [("time", Samples.ints [0; 1; 2]%Z);
            ("aliveOrganisms", Samples.ints [10; 9]%Z)]
           [PInt 0; PInt 1; PInt 2]).
  - left. reflexivity.
  - reflexivity.
  - reflexivity.
  - reflexivity.
Defined.

(** C1 fails as stated: with a series that is [null] the document still
    has a ['data'] mapping and an array under ['time'], and no conversion
    returns a table. *)
Lemma null_series_returns_no_table :
  dict_lookup "data" Samples.null_series =
    Some (PDict [("time", Samples.ints [0; 1]%Z);
                 ("aliveOrganisms", Samples.ints [5]%Z);
                 ("foodCount", PNone);
                 ("speciesCount", PNone);
                 ("combatKills", PNone)]) /\
  to_population_dataframe (PDict Samples.null_series) = Raise TypeError /\
  to_species_dataframe (PDict Samples.null_series) = Raise TypeError /\
  to_interactions_dataframe (PDict Samples.null_series) = Raise TypeError.
Proof. repeat split. Qed.

(** C2 (as amended).  For a document whose ['data'] mapping holds an array
    (or nothing) under ['time'] and under every requested series: when a
    requested series is shorter than ['time'], every conversion returns a
    table with one row per element of ['time'], and in the records of the
    conversion that reads the series, one per row, the series' field
    holds the series' element at an index within the series and [None] at
    an index from its length on. *)
Theorem short_series_padded P fields out key kvs data ts xs
    (HP : In (P, fields) projections)
    (Hfield : In (out, key) fields)
    (Hdata : dict_lookup "data" kvs = Some (PDict data))
    (Htime : dict_get data "time" (PList []) = PList ts)
    (Harr : arrays data all_fields = true)
    (Hseries : dict_get data key (PList []) = PList xs)
    (Hshort : List.length xs < List.length ts) :
  (forall Q qfields, In (Q, qfields) projections ->
     exists df, Q (PDict kvs) = Ok df /\ df_len df = List.length ts) /\
  exists records,
    records_of fields (PDict kvs) = Ok records /\
    List.length records = List.length ts /\
    (forall i, i < List.length xs ->
       exists r, nth_error records i = Some r /\
                 dict_lookup out r = nth_error xs i) /\
    (forall i, List.length xs <= i < List.length ts ->
       exists r, nth_error records i = Some r /\
                 dict_lookup out r = Some PNone).
Proof.
  split.
  - intros Q qfields HQ. rewrite (projections_are_project _ _ _ HQ).
    destruct (project_succeeds qfields _ _ _ Hdata Htime) as [df Hdf].
    { eapply arrays_all; eassumption. }
    exists df. split; [exact Hdf|]. eapply table_len; eassumption.
  - destruct (records_of_succeeds fields _ _ _ Hdata Htime) as [records Hrec].
    { eapply arrays_all; eassumption. }
    destruct (records_of_rows _ _ _ _ _ Hdata Htime Hrec) as [Hlen Hrows].
    destruct (requested_field _ _ _ _ HP Hfield) as [Hkey [_ Hnot_time]].
    exists records. split; [exact Hrec|]. split; [exact Hlen|].
    split; intros i Hi;
      destruct (Hrows i) as [t [cells [_ [Hc Hr]]]]; try lia;
      exists (("time", t) :: cells); (split; [exact Hr|]);
      rewrite (record_field _ _ _ _ t _ _ _ Hc Hkey Hnot_time Hseries).
    + symmetry. apply nth_error_nth'. exact Hi.
    + f_equal. apply nth_overflow. lia.
Qed.

Lemma short_series_padded_witness :
  (forall Q qfields, In (Q, qfields) projections ->
     exists df, Q (PDict Samples.ragged) = Ok df /\ df_len df = 3) /\
  exists records,
    records_of population_fields (PDict Samples.ragged) = Ok records /\
    List.length records = 3 /\
    (forall i, i < 2 ->
       exists r, nth_error records i = Some r /\
                 dict_lookup "alive_organisms" r = nth_error [PInt 10; PInt 9] i) /\
    (forall i, 2 <= i < 3 ->
       exists r, nth_error records i = Some r /\
                 dict_lookup "alive_organisms" r = Some PNone).
Proof.
  apply (short_series_padded to_population_dataframe population_fields
           "alive_organisms" "aliveOrganisms" Samples.ragged
           [("time", Samples.ints [0; 1; 2]%Z);
            ("aliveOrganisms", Samples.ints [10; 9]%Z)]
           [PInt 0; PInt 1; PInt 2] [PInt 10; PInt 9]).
  - left. reflexivity.
  - left. reflexivity.
  - reflexivity.
  - reflexivity.
  - reflexivity.
  - reflexivity.
  - simpl. lia.
Defined.

(** C2 fails as stated: [aliveOrganisms] is shorter than [time], and the
    [null] under [foodCount] makes the population conversion raise. *)
Lemma short_series_beside_null_raises :
  let data := [("time", Samples.ints [0; 1]%Z);
               ("aliveOrganisms", Samples.ints [5]%Z);
               ("foodCount", PNone);
               ("speciesCount", PNone);
               ("combatKills", PNone)] in
  dict_lookup "data" Samples.null_series = Some (PDict data) /\
  dict_get data "time" (PList []) = PList [PInt 0; PInt 1] /\
  dict_get data "aliveOrganisms" (PList []) = PList [PInt 5] /\
  ~ (exists df, to_population_dataframe (PDict Samples.null_series) = Ok df).
Proof.
  repeat split. intros [df H]. discriminate H.
Qed.

(** C7 (as amended).  For a document whose ['data'] mapping holds an array
    (or nothing) under ['time'] and under every series the conversion
    requests: a requested series that is absent is read as the empty list,
    the conversion returns a table with one row per element of ['time'],
    and every row carries the missing marker in that series' field. *)
Theorem absent_series_all_missing P fields out key kvs data ts
    (HP : In (P, fields) projections)
    (Hfield : In (out, key) fields)
    (Hdata : dict_lookup "data" kvs = Some (PDict data))
    (Htime : dict_get data "time" (PList []) = PList ts)
    (Harr : arrays data fields = true)
    (Habsent : dict_lookup key data = None) :
  dict_get data key (PList []) = PList [] /\
  exists df,
    P (PDict kvs) = Ok df /\
    df_len df = List.length ts /\
    forall i, i < df_len df -> cell df out i = Some PNone.
Proof.
  assert (Hseries : dict_get data key (PList []) = PList [])
    by (unfold dict_get; rewrite Habsent; reflexivity).
  split; [exact Hseries|].
  rewrite (projections_are_project _ _ _ HP).
  destruct (project_succeeds _ _ _ _ Hdata Htime Harr) as [df Hdf].
  exists df. split; [exact Hdf|].
  assert (Hlen : df_len df = List.length ts) by (eapply table_len; eassumption).
  split; [exact Hlen|]. intros i Hi. rewrite Hlen in Hi.
  destruct (requested_field _ _ _ _ HP Hfield) as [Hkey [Hstep Hnot_time]].
  destruct (table_cell fields kvs data ts Hdata Htime df out key i
              Hdf Hkey Hstep Hnot_time) as [Hin _].
  destruct (Hin Hi) as [v [Hv Hcell]].
  rewrite (series_at_array _ _ _ _ Hseries) in Hv.
  destruct i; simpl in Hv; inversion Hv; subst v; exact Hcell.
Qed.

Lemma absent_series_all_missing_witness :
  dict_get [("time", Samples.ints [0; 1; 2]%Z);
            ("aliveOrganisms", Samples.ints [10; 9]%Z)]
           "foodCount" (PList []) = PList [] /\
  exists df,
    to_population_dataframe (PDict Samples.ragged) = Ok df /\
    df_len df = 3 /\
    forall i, i < df_len df -> cell df "food_count" i = Some PNone.
Proof.
  apply (absent_series_all_missing to_population_dataframe population_fields
           "food_count" "foodCount" Samples.ragged
           [("time", Samples.ints [0; 1; 2]%Z);
            ("aliveOrganisms", Samples.ints [10; 9]%Z)]
           [PInt 0; PInt 1; PInt 2]).
  - left. reflexivity.
  - right. left. reflexivity.
  - reflexivity.
  - reflexivity.
  - reflexivity.
  - reflexivity.
Defined.

(** C7 fails as stated: [averageEnergy] is absent from the ['data']
    mapping, and the [null] under [foodCount] makes the population
    conversion raise instead of returning rows. *)
Lemma absent_series_beside_null_raises :
  (exists data,
     dict_lookup "data" Samples.null_series = Some (PDict data) /\
     dict_lookup "averageEnergy" data = None) /\
  to_population_dataframe (PDict Samples.null_series) = Raise TypeError.
Proof.
  split; [|reflexivity]. eexists. split; reflexivity.
Qed.

(** The bounds check does its job on every input: whatever the document,
    no conversion raises [IndexError]. *)
Lemma string_get_in_bounds s i :
  i < String.length s -> exists c, String.get i s = Some c.
Proof.
  revert i. induction s as [|c s IH]; intros i Hi; simpl in Hi.
  - lia.
  - destruct i as [|i]; simpl.
    + exists c. reflexivity.
    + apply IH. lia.
Qed.

Lemma series_at_no_IndexError data key i msg :
  series_at data key i <> Raise (IndexError msg).
Proof.
  unfold series_at.
  destruct (dict_get data key (PList [])) as [| | | |s|l|d]; simpl;
    try discriminate.
  - destruct (Nat.ltb_spec i (String.length s)) as [Hi|Hi]; [|discriminate].
    destruct (string_get_in_bounds s i Hi) as [c ->]. discriminate.
  - destruct (Nat.ltb_spec i (List.length l)) as [Hi|Hi]; [|discriminate].
    destruct (nth_error l i) eqn:E; [discriminate|].
    apply nth_error_None in E. lia.
  - destruct (Nat.ltb i (List.length d)); discriminate.
Qed.

Lemma read_fields_no_IndexError data fields i msg :
  read_fields data fields i <> Raise (IndexError msg).
Proof.
  induction fields as [|[out key] rest IH]; simpl; [discriminate|].
  destruct (series_at data key i) as [v|e] eqn:E; simpl.
  - destruct (read_fields data rest i) as [cells|e']; simpl; [discriminate|].
    intros H. inversion H; subst e'. apply IH. reflexivity.
  - intros H. inversion H; subst e.
    exact (series_at_no_IndexError data key i msg E).
Qed.

Lemma for_enumerate_no_IndexError data fields items msg :
  forall i, for_enumerate (build_row data fields) i items <> Raise (IndexError msg).
Proof.
  induction items as [|x rest IH]; intros i; simpl; [discriminate|].
  unfold build_row at 1.
  destruct (read_fields data fields i) as [cells|e] eqn:E; simpl.
  - destruct (for_enumerate (build_row data fields) (S i) rest) as [rs|e'] eqn:E';
      simpl; [discriminate|].
    intros H. inversion H; subst e'. exact (IH (S i) E').
  - intros H. inversion H; subst e.
    exact (read_fields_no_IndexError data fields i msg E).
Qed.

Lemma open_data_no_IndexError stats msg :
  open_data stats <> Raise (IndexError msg).
Proof.
  unfold open_data.
  destruct stats as [| | | |s|l|d]; simpl; try discriminate.
  - destruct (is_substring "data" s); discriminate.
  - destruct (existsb (is_str "data") l); discriminate.
  - destruct (dict_lookup "data" d) as [v|]; simpl; [|discriminate].
    destruct v as [| | | |s|l|d']; simpl; try discriminate.
    destruct (dict_get d' "time" (PList [])); discriminate.
Qed.

Lemma projections_never_raise_IndexError P fields stats msg :
  In (P, fields) projections -> P stats <> Raise (IndexError msg).
Proof.
  intros HP. rewrite (projections_are_project _ _ _ HP). unfold project.
  destruct (open_data stats) as [[data times]|e] eqn:E; simpl.
  - destruct (for_enumerate (build_row data fields) 0 times) as [rs|e] eqn:E';
      simpl; [discriminate|].
    intros H. inversion H; subst e.
    exact (for_enumerate_no_IndexError data fields times msg 0 E').
  - intros H. inversion H; subst e. exact (open_data_no_IndexError stats msg E).
Qed.

(** Reads below the row count cannot tell apart two series with the same
    first [n] elements. *)
Lemma series_at_same_prefix n data data' key i :
  same_prefix n (dict_get data key (PList [])) (dict_get data' key (PList [])) ->
  i < n ->
  series_at data key i = series_at data' key i.
Proof.
  intros [Heq|[xs [xs' [Hx [Hx' Hpre]]]]] Hi.
  - unfold series_at. rewrite Heq. reflexivity.
  - rewrite (series_at_array _ _ _ _ Hx), (series_at_array _ _ _ _ Hx').
    assert (E : nth_error xs i = nth_error xs' i).
    { assert (Hlt : Nat.ltb i n = true) by (apply Nat.ltb_lt; exact Hi).
      pose proof (nth_error_firstn n xs i) as E1.
      pose proof (nth_error_firstn n xs' i) as E2.
      rewrite Hlt in E1, E2. rewrite <- E1, <- E2, Hpre. reflexivity. }
    rewrite E. reflexivity.
Qed.

Lemma read_fields_same_prefix n data data' fields i :
  (forall out key, In (out, key) fields ->
     same_prefix n (dict_get data key (PList [])) (dict_get data' key (PList []))) ->
  i < n ->
  read_fields data fields i = read_fields data' fields i.
Proof.
  intros Hsame Hi. induction fields as [|[out key] rest IH]; simpl.
  - reflexivity.
  - rewrite (series_at_same_prefix n data data' key i), IH.
    + reflexivity.
    + intros o k Hin. apply (Hsame o k). right. exact Hin.
    + apply (Hsame out key). left. reflexivity.
    + exact Hi.
Qed.

Lemma project_same_prefix fields kvs kvs' data data' ts :
  dict_lookup "data" kvs = Some (PDict data) ->
  dict_lookup "data" kvs' = Some (PDict data') ->
  dict_get data "time" (PList []) = PList ts ->
  dict_get data' "time" (PList []) = PList ts ->
  (forall out key, In (out, key) fields ->
     same_prefix (List.length ts)
       (dict_get data key (PList [])) (dict_get data' key (PList []))) ->
  project fields (PDict kvs') = project fields (PDict kvs).
Proof.
  intros Hd Hd' Ht Ht' Hsame. unfold project.
  rewrite (open_data_mapping _ _ _ Hd Ht), (open_data_mapping _ _ _ Hd' Ht').
  simpl.
  rewrite (for_enumerate_ext (build_row data' fields) (build_row data fields)).
  - reflexivity.
  - intros j x Hj. unfold build_row.
    rewrite (read_fields_same_prefix (List.length ts) data data' fields j Hsame)
      by lia.
    reflexivity.
Qed.

(** C10.  When a requested series is an array longer than the array under
    ['time']: a returned table has one row per element of ['time'] and no
    cell past them; the values the records hold in the series' field are,
    in order, the series cut to that length; changing any requested array
    at positions from [len(time)] on leaves the outcome of the conversion
    unchanged; and a table is returned whenever every requested series is
    an array or absent. *)
Theorem long_series_truncated P fields out key kvs data ts xs
    (HP : In (P, fields) projections)
    (Hfield : In (out, key) fields)
    (Hdata : dict_lookup "data" kvs = Some (PDict data))
    (Htime : dict_get data "time" (PList []) = PList ts)
    (Hseries : dict_get data key (PList []) = PList xs)
    (Hlong : List.length ts < List.length xs) :
  (forall df, P (PDict kvs) = Ok df ->
     df_len df = List.length ts /\
     forall i, List.length ts <= i -> cell df out i = None) /\
  (forall records, records_of fields (PDict kvs) = Ok records ->
     map (record_cell out) records = firstn (List.length ts) xs) /\
  (forall kvs' data',
     dict_lookup "data" kvs' = Some (PDict data') ->
     dict_get data' "time" (PList []) = PList ts ->
     (forall o k, In (o, k) fields ->
        same_prefix (List.length ts)
          (dict_get data k (PList [])) (dict_get data' k (PList []))) ->
     P (PDict kvs') = P (PDict kvs)) /\
  (arrays data fields = true -> exists df, P (PDict kvs) = Ok df).
Proof.
  rewrite (projections_are_project _ _ _ HP).
  destruct (requested_field _ _ _ _ HP Hfield) as [Hkey [Hstep Hnot_time]].
  split; [|split; [|split]].
  - intros df Hdf. split; [eapply table_len; eassumption|].
    intros i Hi.
    destruct (table_cell fields kvs data ts Hdata Htime df out key i
                Hdf Hkey Hstep Hnot_time) as [_ Hout].
    apply Hout. exact Hi.
  - intros records Hrec.
    destruct (records_of_rows _ _ _ _ _ Hdata Htime Hrec) as [Hlen Hrows].
    apply nth_error_ext. intros i.
    rewrite nth_error_map, nth_error_firstn.
    destruct (Nat.ltb_spec i (List.length ts)) as [Hi|Hi].
    + destruct (Hrows i Hi) as [t [cells [_ [Hc Hr]]]].
      rewrite Hr. unfold option_map, record_cell.
      rewrite (record_field _ _ _ _ t _ _ _ Hc Hkey Hnot_time Hseries).
      symmetry. apply nth_error_nth'. lia.
    + assert (E : nth_error records i = None) by (apply nth_error_None; lia).
      rewrite E. reflexivity.
  - intros kvs' data' Hd' Ht' Hsame.
    rewrite (projections_are_project _ _ _ HP).
    eapply project_same_prefix; eassumption.
  - intros Harr. eapply project_succeeds; eassumption.
Qed.

Lemma long_series_truncated_witness :
  (forall df, to_population_dataframe (PDict Samples.long_series) = Ok df ->
     df_len df = 2 /\
     forall i, 2 <= i -> cell df "food_count" i = None) /\
  (forall records,
     records_of population_fields (PDict Samples.long_series) = Ok records ->
     map (record_cell "food_count") records = [PInt 7; PInt 8]) /\
  to_population_dataframe (PDict Samples.cut_series) =
  to_population_dataframe (PDict Samples.long_series) /\
  exists df, to_population_dataframe (PDict Samples.long_series) = Ok df.
Proof.
  destruct (long_series_truncated to_population_dataframe population_fields
              "food_count" "foodCount" Samples.long_series
              [("time", Samples.ints [0; 1]%Z);
               ("foodCount", Samples.ints [7; 8; 9; 10]%Z)]
              [PInt 0; PInt 1] [PInt 7; PInt 8; PInt 9; PInt 10])
    as [Hrows [Hcut [Hsame Hret]]].
  - left. reflexivity.
  - right. left. reflexivity.
  - reflexivity.
  - reflexivity.
  - reflexivity.
  - simpl. lia.
  - split; [exact Hrows|]. split; [exact Hcut|]. split.
    + apply (Hsame Samples.cut_series
               [("time", Samples.ints [0; 1]%Z);
                ("foodCount", Samples.ints [7; 8]%Z)]).
      * reflexivity.
      * reflexivity.
      * intros o k [H|[H|[H|[]]]]; inversion H; subst.
        -- left. reflexivity.
        -- right. exists [PInt 7; PInt 8; PInt 9; PInt 10], [PInt 7; PInt 8].
           repeat split.
        -- left. reflexivity.
    + apply Hret. reflexivity.
Defined.

(** The records of the ragged sample in full: three rows,
    [alive_organisms] padded in the last one, the two absent series
    [None] throughout. *)
Example ragged_population_records :
  records_of population_fields (PDict Samples.ragged) =
  Ok [[("time", PInt 0); ("alive_organisms", PInt 10);
       ("food_count", PNone); ("average_energy", PNone)];
      [("time", PInt 1); ("alive_organisms", PInt 9);
       ("food_count", PNone); ("average_energy", PNone)];
      [("time", PInt 2); ("alive_organisms", PNone);
       ("food_count", PNone); ("average_energy", PNone)]].
Proof. reflexivity. Qed.

(** Column labels of a table with at least one row. *)
Lemma columns_of_rows P fields kvs data t ts df :
  In (P, fields) projections ->
  dict_lookup "data" kvs = Some (PDict data) ->
  dict_get data "time" (PList []) = PList (t :: ts) ->
  P (PDict kvs) = Ok df ->
  columns df = ("time" :: map fst fields ++ ["step"])%list.
Proof.
  intros HP Hdata Htime Hdf.
  rewrite (projections_are_project _ _ _ HP) in Hdf.
  rewrite (table_columns fields kvs data (t :: ts) Hdata Htime df Hdf).
  destruct HP as [E|[E|[E|[]]]]; inversion E; subst; reflexivity.
Qed.

(** C5, evaluated where it fails.  With an empty or absent ['time'] each
    conversion returns a table whose only column is [step]; the columns
    [time], [alive_organisms], ... are missing. *)
Theorem columns_without_rows :
  (exists df, to_population_dataframe (PDict Samples.empty_time) = Ok df /\
              columns df = ["step"]) /\
  (exists df, to_species_dataframe (PDict Samples.empty_time) = Ok df /\
              columns df = ["step"]) /\
  (exists df, to_interactions_dataframe (PDict Samples.empty_time) = Ok df /\
              columns df = ["step"]) /\
  (exists df, to_population_dataframe (PDict Samples.no_time) = Ok df /\
              columns df = ["step"]) /\
  (exists df, to_species_dataframe (PDict Samples.no_time) = Ok df /\
              columns df = ["step"]) /\
  (exists df, to_interactions_dataframe (PDict Samples.no_time) = Ok df /\
              columns df = ["step"]).
Proof.
  repeat split; eexists; split; reflexivity.
Qed.

(* ================================================================== *)
(** ** Metadata *)

(** C6.  On a document (a JSON object), [get_metadata] never raises: it
    returns the empty mapping when there is no ['metadata'] key and the
    stored value, as it is, otherwise. *)
Theorem get_metadata_total (kvs : pydict) :
  (exists v, get_metadata (PDict kvs) = Ok v) /\
  (dict_lookup "metadata" kvs = None ->
     get_metadata (PDict kvs) = Ok (PDict [])) /\
  (forall v, dict_lookup "metadata" kvs = Some v ->
     get_metadata (PDict kvs) = Ok v).
Proof.
  unfold get_metadata, dict_get. simpl.
  destruct (dict_lookup "metadata" kvs) as [v|] eqn:E.
  - split; [exists v; reflexivity|]. split.
    + intros H. discriminate H.
    + intros v' H. inversion H. reflexivity.
  - split; [eexists; reflexivity|]. split.
    + intros _. reflexivity.
    + intros v' H. discriminate H.
Qed.

(* ================================================================== *)
(** ** The combined loader *)

Lemma missing_data_raises P fields kvs :
  In (P, fields) projections ->
  dict_lookup "data" kvs = None ->
  P (PDict kvs) = Raise (ValueError "No data found in statistics").
Proof.
  intros HP Hnone. rewrite (projections_are_project _ _ _ HP).
  unfold project, open_data. simpl. rewrite Hnone. reflexivity.
Qed.

Lemma downgraded_kind_caught e :
  downgraded_kind e = true <-> exists msg, caught e = Some msg.
Proof.
  destruct e; simpl; split; intros H;
    try reflexivity; try discriminate;
    try (eexists; reflexivity);
    destruct H as [msg H]; discriminate.
Qed.

Lemma not_downgraded_uncaught e :
  downgraded_kind e = false -> caught e = None.
Proof. destruct e; simpl; intros H; try discriminate; reflexivity. Qed.

Lemma attempt_uncaught table e :
  downgraded_kind e = false -> attempt table (Raise e) = ([], Raise e).
Proof.
  intros H. unfold attempt. rewrite (not_downgraded_uncaught e H). reflexivity.
Qed.

Section LoaderFacts.

Variable joinpath : string -> string -> string.
Variable fs : string -> option fs_node.
Variable json_loads : string -> string + pyval.

(** [read] is [load_statistics] and [load_all] is [load_all_data] in this
    world. *)
Local Abbreviation read := (load_statistics joinpath fs json_loads).
Local Abbreviation load_all := (load_all_data joinpath fs json_loads).

(** C3.  For a document without the ['data'] key, each conversion called
    directly raises [ValueError("No data found in statistics")];
    [load_all_data] on a file holding that document prints one warning
    per conversion, returns the empty frame under ['population'],
    ['species'] and ['interactions'], and the document's metadata under
    ['metadata']. *)
Theorem missing_data_downgraded self filename kvs
    (Hread : read self filename = Ok (PDict kvs))
    (Hnone : dict_lookup "data" kvs = None) :
  to_population_dataframe (PDict kvs) =
    Raise (ValueError "No data found in statistics") /\
  to_species_dataframe (PDict kvs) =
    Raise (ValueError "No data found in statistics") /\
  to_interactions_dataframe (PDict kvs) =
    Raise (ValueError "No data found in statistics") /\
  load_all self filename =
    (["Warning: Could not load population data: No data found in statistics";
      "Warning: Could not load species data: No data found in statistics";
      "Warning: Could not load interactions data: No data found in statistics"],
     Ok (mkBundle DataFrame_empty DataFrame_empty DataFrame_empty
           (dict_get kvs "metadata" (PDict [])))) /\
  Forall (fun line => line <> "") (fst (load_all self filename)).
Proof.
  assert (Hp := missing_data_raises to_population_dataframe population_fields
                  kvs (or_introl eq_refl) Hnone).
  assert (Hs := missing_data_raises to_species_dataframe species_fields
                  kvs (or_intror (or_introl eq_refl)) Hnone).
  assert (Hi := missing_data_raises to_interactions_dataframe interactions_fields
                  kvs (or_intror (or_intror (or_introl eq_refl))) Hnone).
  assert (Hall : load_all self filename =
    (["Warning: Could not load population data: No data found in statistics";
      "Warning: Could not load species data: No data found in statistics";
      "Warning: Could not load interactions data: No data found in statistics"],
     Ok (mkBundle DataFrame_empty DataFrame_empty DataFrame_empty
           (dict_get kvs "metadata" (PDict []))))).
  { unfold load_all_data. rewrite Hread. unfold io_lift, io_bind.
    rewrite Hp, Hs, Hi. reflexivity. }
  repeat split; try assumption.
  rewrite Hall. simpl. repeat constructor; discriminate.
Qed.

(** C4.  When nothing exists at the resolved path, [load_statistics]
    raises [FileNotFoundError]; when the file's text is not valid JSON it
    raises [JSONDecodeError]; and whatever [load_statistics] raises,
    [load_all_data] raises the same exception, having printed nothing and
    built no bundle. *)
Theorem read_failure_propagates self filename :
  (fs (joinpath (data_dir self) filename) = None ->
     read self filename = Raise FileNotFoundError /\
     load_all self filename = ([], Raise FileNotFoundError)) /\
  (forall text msg,
     fs (joinpath (data_dir self) filename) = Some (TextFile text) ->
     json_loads text = inl msg ->
     read self filename = Raise (JSONDecodeError msg) /\
     load_all self filename = ([], Raise (JSONDecodeError msg))) /\
  (forall e,
     read self filename = Raise e ->
     load_all self filename = ([], Raise e)).
Proof.
  assert (Hprop : forall e, read self filename = Raise e ->
                    load_all self filename = ([], Raise e)).
  { intros e He. unfold load_all_data. rewrite He. reflexivity. }
  split; [|split].
  - intros Hnone.
    assert (He : read self filename = Raise FileNotFoundError).
    { unfold load_statistics, read_text. rewrite Hnone. reflexivity. }
    split; [exact He|apply Hprop, He].
  - intros text msg Hfile Hbad.
    assert (He : read self filename = Raise (JSONDecodeError msg)).
    { unfold load_statistics, read_text. rewrite Hfile. simpl.
      rewrite Hbad. reflexivity. }
    split; [exact He|apply Hprop, He].
  - exact Hprop.
Qed.

(** C8.  [load_simulation(filename, data_dir)] is [load_all_data] on a
    loader constructed with that directory: same printed lines, same
    bundle or same exception; with the argument left out both use
    ["../data"]. *)
Theorem load_simulation_is_load_all filename dir :
  load_simulation joinpath fs json_loads filename (Some dir) =
    load_all (SimulationDataLoader_init (Some dir)) filename /\
  data_dir (SimulationDataLoader_init (Some dir)) = dir /\
  load_simulation joinpath fs json_loads filename None =
    load_all (SimulationDataLoader_init None) filename /\
  data_dir (SimulationDataLoader_init None) = "../data".
Proof. repeat split. Qed.

(** What one [try] block does with the outcome of its conversion. *)
Lemma attempt_cases table m :
  match m with
  | Ok df => attempt table m = ([], Ok df)
  | Raise e =>
      if downgraded_kind e
      then exists msg,
             caught e = Some msg /\
             attempt table m =
               (["Warning: Could not load " ++ table ++ " data: " ++ msg],
                Ok DataFrame_empty)
      else attempt table m = ([], Raise e)
  end.
Proof.
  destruct m as [df|e]; [reflexivity|].
  destruct e; simpl; try reflexivity; eexists; split; reflexivity.
Qed.

Lemma attempt_continues table m :
  (forall e, m = Raise e -> downgraded_kind e = true) ->
  exists out df, attempt table m = (out, Ok df).
Proof.
  intros H. pose proof (attempt_cases table m) as Hc.
  destruct m as [df|e].
  - eexists. eexists. exact Hc.
  - rewrite (H e eq_refl) in Hc. destruct Hc as [msg [_ Hc]].
    eexists. eexists. exact Hc.
Qed.

(** C9.  Inside [load_all_data] a conversion's exception is replaced by a
    warning and an empty frame exactly when its class is [ValueError],
    [KeyError] or [IndexError] (subclasses included).  An exception of
    any other class raised by a conversion that is reached is the outcome
    of [load_all_data]: no bundle is returned. *)
Theorem other_kinds_propagate self filename stats
    (Hread : read self filename = Ok stats) :
  (forall table e,
     downgraded_kind e = true ->
     exists msg,
       attempt table (Raise e) =
         (["Warning: Could not load " ++ table ++ " data: " ++ msg],
          Ok DataFrame_empty)) /\
  (forall table e,
     downgraded_kind e = false -> attempt table (Raise e) = ([], Raise e)) /\
  (downgraded_kind TypeError = false /\ downgraded_kind AttributeError = false) /\
  (forall e,
     downgraded_kind e = false ->
     to_population_dataframe stats = Raise e ->
     load_all self filename = ([], Raise e)) /\
  (forall e,
     downgraded_kind e = false ->
     (forall e', to_population_dataframe stats = Raise e' ->
                 downgraded_kind e' = true) ->
     to_species_dataframe stats = Raise e ->
     snd (load_all self filename) = Raise e) /\
  (forall e,
     downgraded_kind e = false ->
     (forall e', to_population_dataframe stats = Raise e' ->
                 downgraded_kind e' = true) ->
     (forall e', to_species_dataframe stats = Raise e' ->
                 downgraded_kind e' = true) ->
     to_interactions_dataframe stats = Raise e ->
     snd (load_all self filename) = Raise e).
Proof.
  split; [|split; [|split; [|split; [|split]]]].
  - intros table e He. pose proof (attempt_cases table (Raise e)) as Hc.
    simpl in Hc. rewrite He in Hc. destruct Hc as [msg [_ Hc]].
    exists msg. exact Hc.
  - intros table e He. apply attempt_uncaught. exact He.
  - split; reflexivity.
  - intros e He Hp. unfold load_all_data. rewrite Hread. unfold io_lift, io_bind.
    rewrite Hp, (attempt_uncaught _ _ He). reflexivity.
  - intros e He Hpop Hs. unfold load_all_data. rewrite Hread.
    unfold io_lift, io_bind.
    destruct (attempt_continues "population" _ Hpop) as [out [df ->]].
    rewrite Hs, (attempt_uncaught _ _ He). reflexivity.
  - intros e He Hpop Hspe Hi. unfold load_all_data. rewrite Hread.
    unfold io_lift, io_bind.
    destruct (attempt_continues "population" _ Hpop) as [out [df ->]].
    destruct (attempt_continues "species" _ Hspe) as [out' [df' ->]].
    rewrite Hi, (attempt_uncaught _ _ He). reflexivity.
Qed.

End LoaderFacts.

(* ================================================================== *)
(** ** The loader in the sample world *)

Module World.
Import Samples.

Lemma missing_data_downgraded_witness :
  to_population_dataframe (PDict no_data) =
    Raise (ValueError "No data found in statistics") /\
  to_species_dataframe (PDict no_data) =
    Raise (ValueError "No data found in statistics") /\
  to_interactions_dataframe (PDict no_data) =
    Raise (ValueError "No data found in statistics") /\
  load_all_data joinpath fs json_loads loader "no_data.json" =
    (["Warning: Could not load population data: No data found in statistics";
      "Warning: Could not load species data: No data found in statistics";
      "Warning: Could not load interactions data: No data found in statistics"],
     Ok (mkBundle DataFrame_empty DataFrame_empty DataFrame_empty
           (PDict [("seed", PInt 7)]))) /\
  Forall (fun line => line <> "")
    (fst (load_all_data joinpath fs json_loads loader "no_data.json")).
Proof.
  apply (missing_data_downgraded joinpath fs json_loads loader "no_data.json" no_data).
  - reflexivity.
  - reflexivity.
Defined.

Lemma read_failure_propagates_witness :
  (load_statistics joinpath fs json_loads loader "missing.json" = Raise FileNotFoundError /\
   load_all_data joinpath fs json_loads loader "missing.json" = ([], Raise FileNotFoundError)) /\
  (load_statistics joinpath fs json_loads loader "broken.json" =
     Raise (JSONDecodeError "Expecting property name enclosed in double quotes") /\
   load_all_data joinpath fs json_loads loader "broken.json" =
     ([], Raise (JSONDecodeError "Expecting property name enclosed in double quotes"))).
Proof.
  split.
  - apply (read_failure_propagates joinpath fs json_loads loader "missing.json").
    reflexivity.
  - apply (read_failure_propagates joinpath fs json_loads loader "broken.json")
      with (text := "{").
    + reflexivity.
    + reflexivity.
Defined.

Lemma other_kinds_propagate_witness :
  load_all_data joinpath fs json_loads loader "data5.json" = ([], Raise AttributeError) /\
  load_all_data joinpath fs json_loads loader "time5.json" = ([], Raise TypeError).
Proof.
  split.
  - apply (other_kinds_propagate joinpath fs json_loads loader "data5.json"
             (PDict data_not_mapping)); reflexivity.
  - apply (other_kinds_propagate joinpath fs json_loads loader "time5.json"
             (PDict time_not_sequence)); reflexivity.
Defined.

(** A [KeyError] from an int subscript on a dict is one of the three
    kinds: the species table is lost, the other two are built. *)
Example key_error_is_downgraded :
  exists pop int,
    load_all_data joinpath fs json_loads loader "dict_series.json" =
      (["Warning: Could not load species data: 0"],
       Ok (mkBundle pop DataFrame_empty int (PDict []))) /\
    df_len pop = 1 /\ df_len int = 1.
Proof. eexists. eexists. repeat split. Qed.

End World.

(* ================================================================== *)
(** ** Further properties of the conversions *)

(** A conversion that returns went through the guard, the loop and the
    frame construction, whatever the document is. *)
Lemma project_shape fields stats df :
  project fields stats = Ok df ->
  exists data times records,
    open_data stats = Ok (data, times) /\
    for_enumerate (build_row data fields) 0 times = Ok records /\
    List.length records = List.length times /\
    df = assign_range (DataFrame_of_records records) "step".
Proof.
  unfold project. intros H.
  destruct (open_data stats) as [[data times]|e]; simpl in H; [|discriminate].
  destruct (for_enumerate (build_row data fields) 0 times) as [records|e] eqn:E;
    simpl in H; [|discriminate].
  inversion H. exists data, times, records.
  destruct (for_enumerate_rows _ _ _ _ _ E) as [Hlen _].
  split; [reflexivity|]. split; [exact E|]. split; [exact Hlen|reflexivity].
Qed.

Lemma find_column_In name cols cells :
  find_column name cols = Some cells -> In name (map fst cols).
Proof.
  induction cols as [|[c old] rest IH]; simpl; intros H.
  - discriminate.
  - destruct (String.eqb c name) eqn:E.
    + left. apply String.eqb_eq. exact E.
    + right. apply IH. exact H.
Qed.

Lemma project_step fields stats df :
  project fields stats = Ok df ->
  column df "step" = Some (py_range (df_len df)).
Proof.
  intros H. destruct (project_shape _ _ _ H) as [data [times [records [_ [_ [_ ->]]]]]].
  rewrite frame_step, frame_len. reflexivity.
Qed.

Lemma project_not_empty_frame fields stats df :
  project fields stats = Ok df -> df <> DataFrame_empty.
Proof.
  intros H Heq. pose proof (project_step _ _ _ H) as Hstep.
  rewrite Heq in Hstep. discriminate Hstep.
Qed.

(** X1.  Whatever object is passed, none of the three conversions raises
    [IndexError]: every subscript is behind its bounds check. *)
Theorem conversions_never_raise_IndexError (stats : pyval) (msg : string) :
  to_population_dataframe stats <> Raise (IndexError msg) /\
  to_species_dataframe stats <> Raise (IndexError msg) /\
  to_interactions_dataframe stats <> Raise (IndexError msg).
Proof.
  repeat split.
  - apply (projections_never_raise_IndexError _ population_fields).
    left. reflexivity.
  - apply (projections_never_raise_IndexError _ species_fields).
    right. left. reflexivity.
  - apply (projections_never_raise_IndexError _ interactions_fields).
    right. right. left. reflexivity.
Qed.

Lemma series_at_errors data key i e :
  series_at data key i = Raise e -> e = TypeError \/ e = KeyError (repr_nat i).
Proof.
  unfold series_at.
  destruct (dict_get data key (PList [])) as [| | | |s|l|d]; simpl; intros H;
    try (inversion H; left; reflexivity).
  - destruct (Nat.ltb_spec i (String.length s)) as [Hi|Hi]; [|discriminate].
    destruct (string_get_in_bounds s i Hi) as [c Hc]. rewrite Hc in H. discriminate.
  - destruct (Nat.ltb_spec i (List.length l)) as [Hi|Hi]; [|discriminate].
    destruct (nth_error l i) eqn:E; [discriminate|].
    apply nth_error_None in E. lia.
  - destruct (Nat.ltb i (List.length d)); inversion H. right. reflexivity.
Qed.

Lemma read_fields_errors data fields i e :
  read_fields data fields i = Raise e -> e = TypeError \/ e = KeyError (repr_nat i).
Proof.
  induction fields as [|[out key] rest IH]; simpl; intros H; [discriminate|].
  destruct (series_at data key i) as [v|e'] eqn:E; simpl in H.
  - destruct (read_fields data rest i) as [cells|e'']; simpl in H; [discriminate|].
    inversion H; subst. apply IH. reflexivity.
  - inversion H; subst. eapply series_at_errors. exact E.
Qed.

Lemma for_enumerate_errors data fields items e :
  forall i,
  for_enumerate (build_row data fields) i items = Raise e ->
  e = TypeError \/
  exists j, i <= j < i + List.length items /\ e = KeyError (repr_nat j).
Proof.
  induction items as [|x rest IH]; intros i H; simpl in H; [discriminate|].
  unfold build_row in H at 1.
  destruct (read_fields data fields i) as [cells|e'] eqn:E; simpl in H.
  - destruct (for_enumerate (build_row data fields) (S i) rest) as [rs|e''] eqn:E';
      simpl in H; [discriminate|].
    inversion H; subst. destruct (IH _ E') as [Ht|[j [Hj Hk]]].
    + left. exact Ht.
    + right. exists j. split; [simpl; lia|exact Hk].
  - inversion H; subst. destruct (read_fields_errors _ _ _ _ E) as [Ht|Hk].
    + left. exact Ht.
    + right. exists i. split; [simpl; lia|exact Hk].
Qed.

Lemma open_data_errors stats e :
  open_data stats = Raise e ->
  e = ValueError "No data found in statistics" \/ e = TypeError \/ e = AttributeError.
Proof.
  unfold open_data.
  destruct stats as [| | | |s|l|d]; simpl; intros H;
    try (inversion H; right; left; reflexivity).
  - destruct (is_substring "data" s); simpl in H; inversion H; auto.
  - destruct (existsb (is_str "data") l); simpl in H; inversion H; auto.
  - destruct (dict_lookup "data" d) as [v|]; simpl in H; [|inversion H; auto].
    destruct v as [| | | |s|l|d']; simpl in H; try (inversion H; auto).
    destruct (dict_get d' "time" (PList [])); simpl in H; inversion H; auto.
Qed.

Lemma project_errors fields stats e :
  project fields stats = Raise e ->
  e = ValueError "No data found in statistics" \/
  e = TypeError \/ e = AttributeError \/
  exists i, e = KeyError (repr_nat i).
Proof.
  unfold project. intros H.
  destruct (open_data stats) as [[data times]|e'] eqn:E; simpl in H.
  - destruct (for_enumerate (build_row data fields) 0 times) as [rs|e''] eqn:E';
      simpl in H; [discriminate|].
    inversion H; subst. destruct (for_enumerate_errors _ _ _ _ _ E') as [Ht|[j [_ Hk]]].
    + right. left. exact Ht.
    + right. right. right. exists j. exact Hk.
  - inversion H; subst. destruct (open_data_errors _ _ E) as [Hv|[Ht|Ha]]; auto.
Qed.

(** X2.  The only exceptions a conversion can raise, on any object:
    [ValueError("No data found in statistics")], [TypeError],
    [AttributeError], or [KeyError(i)] for a row index [i]. *)
Theorem conversion_error_classes P fields stats e
    (HP : In (P, fields) projections)
    (Hraise : P stats = Raise e) :
  e = ValueError "No data found in statistics" \/
  e = TypeError \/ e = AttributeError \/
  exists i, e = KeyError (repr_nat i).
Proof.
  rewrite (projections_are_project _ _ _ HP) in Hraise.
  eapply project_errors. exact Hraise.
Qed.

Lemma conversion_error_classes_witness :
  KeyError "0" = ValueError "No data found in statistics" \/
  KeyError "0" = TypeError \/ KeyError "0" = AttributeError \/
  exists i, KeyError "0" = KeyError (repr_nat i).
Proof.
  apply (conversion_error_classes to_species_dataframe species_fields
           (PDict Samples.dict_series) (KeyError "0")).
  - right. left. reflexivity.
  - reflexivity.
Defined.

(** X3.  On a document (a JSON object) a conversion raises [ValueError]
    exactly when the ['data'] key is missing; a document that has the key
    can only fail with another class. *)
Theorem value_error_iff_no_data P fields kvs
    (HP : In (P, fields) projections) :
  (exists msg, P (PDict kvs) = Raise (ValueError msg)) <->
  dict_lookup "data" kvs = None.
Proof.
  split.
  - intros [msg H]. rewrite (projections_are_project _ _ _ HP) in H.
    destruct (dict_lookup "data" kvs) as [v|] eqn:Ev; [|reflexivity].
    exfalso. unfold project in H.
    destruct (open_data (PDict kvs)) as [[data times]|e] eqn:E; simpl in H.
    + destruct (for_enumerate (build_row data fields) 0 times) as [rs|e] eqn:E';
        simpl in H; [discriminate|].
      inversion H; subst e.
      destruct (for_enumerate_errors _ _ _ _ _ E') as [Ht|[j [_ Hk]]]; discriminate.
    + inversion H; subst e. unfold open_data in E. simpl in E. rewrite Ev in E.
      simpl in E. destruct v as [| | | |s|l|d']; simpl in E; try discriminate.
      destruct (dict_get d' "time" (PList [])); simpl in E; discriminate.
  - intros Hnone. exists "No data found in statistics".
    apply (missing_data_raises P fields); assumption.
Qed.

Lemma value_error_iff_no_data_witness :
  (exists msg, to_interactions_dataframe (PDict Samples.no_data) = Raise (ValueError msg)) <->
  dict_lookup "data" Samples.no_data = None.
Proof.
  apply (value_error_iff_no_data to_interactions_dataframe interactions_fields).
  right. right. left. reflexivity.
Defined.

(** X4.  Every table a conversion returns, on any object, has a [step]
    column holding [0 .. len-1]; in particular it is never the frame
    without columns that [load_all_data] substitutes after a failure. *)
Theorem returned_table_has_step P fields stats df
    (HP : In (P, fields) projections)
    (Hret : P stats = Ok df) :
  column df "step" = Some (py_range (df_len df)) /\
  In "step" (columns df) /\
  df <> DataFrame_empty.
Proof.
  rewrite (projections_are_project _ _ _ HP) in Hret.
  pose proof (project_step _ _ _ Hret) as Hstep.
  split; [exact Hstep|]. split.
  - eapply find_column_In. exact Hstep.
  - eapply project_not_empty_frame. exact Hret.
Qed.

Lemma returned_table_has_step_witness :
  let df := mkDataFrame [("step", [])] 0 in
  column df "step" = Some (py_range (df_len df)) /\
  In "step" (columns df) /\
  df <> DataFrame_empty.
Proof.
  apply (returned_table_has_step to_species_dataframe species_fields
           (PDict Samples.no_time)).
  - right. left. reflexivity.
  - reflexivity.
Defined.

Lemma nth_error_py_range n i :
  i < n -> nth_error (py_range n) i = Some (PInt (Z.of_nat i)).
Proof.
  intros Hi. unfold py_range. rewrite nth_error_map.
  rewrite (nth_error_nth' (seq 0 n) 0) by (rewrite length_seq; exact Hi).
  rewrite seq_nth by exact Hi. reflexivity.
Qed.

(** X5.  The records of a document of arrays, and the table made of
    them: the conversion returns a table with one row per element of
    ['time'] whose [step] cell in row [i] is [i]; it is built from one
    record per row, and record [i] holds [time[i]] under [time] and, under
    each field, its series' element [i], or [None] when the series has no
    element [i]. *)
Theorem table_of_arrays P fields kvs data ts
    (HP : In (P, fields) projections)
    (Hdata : dict_lookup "data" kvs = Some (PDict data))
    (Htime : dict_get data "time" (PList []) = PList ts)
    (Harr : arrays data fields = true) :
  exists df records,
    P (PDict kvs) = Ok df /\
    records_of fields (PDict kvs) = Ok records /\
    df_len df = List.length ts /\
    List.length records = List.length ts /\
    forall i, i < List.length ts ->
      cell df "step" i = Some (PInt (Z.of_nat i)) /\
      exists r,
        nth_error records i = Some r /\
        dict_lookup "time" r = nth_error ts i /\
        forall out key xs,
          In (out, key) fields ->
          dict_get data key (PList []) = PList xs ->
          dict_lookup out r = Some (nth i xs PNone).
Proof.
  destruct (project_succeeds _ _ _ _ Hdata Htime Harr) as [df Hdf].
  destruct (records_of_succeeds _ _ _ _ Hdata Htime Harr) as [records Hrec].
  destruct (records_of_rows _ _ _ _ _ Hdata Htime Hrec) as [Hlen Hrows].
  exists df, records. rewrite (projections_are_project _ _ _ HP).
  split; [exact Hdf|]. split; [exact Hrec|].
  split; [eapply table_len; eassumption|]. split; [exact Hlen|].
  intros i Hi. split.
  - unfold cell. rewrite (table_step fields kvs data ts Hdata Htime df Hdf).
    apply nth_error_py_range. exact Hi.
  - destruct (Hrows i Hi) as [t [cells [Ht [Hc Hr]]]].
    exists (("time", t) :: cells). split; [exact Hr|]. split.
    + rewrite Ht. reflexivity.
    + intros out key xs Hfield Hxs.
      destruct (requested_field _ _ _ _ HP Hfield) as [Hkey [_ Hnot_time]].
      exact (record_field _ _ _ _ t _ _ _ Hc Hkey Hnot_time Hxs).
Qed.

Lemma table_of_arrays_witness :
  exists df records,
    to_population_dataframe (PDict Samples.ragged) = Ok df /\
    records_of population_fields (PDict Samples.ragged) = Ok records /\
    df_len df = 3 /\
    List.length records = 3 /\
    forall i, i < 3 ->
      cell df "step" i = Some (PInt (Z.of_nat i)) /\
      exists r,
        nth_error records i = Some r /\
        dict_lookup "time" r = nth_error [PInt 0; PInt 1; PInt 2] i /\
        forall out key xs,
          In (out, key) population_fields ->
          dict_get [("time", Samples.ints [0; 1; 2]%Z);
                    ("aliveOrganisms", Samples.ints [10; 9]%Z)]
                   key (PList []) = PList xs ->
          dict_lookup out r = Some (nth i xs PNone).
Proof.
  apply (table_of_arrays to_population_dataframe population_fields
           Samples.ragged
           [("time", Samples.ints [0; 1; 2]%Z);
            ("aliveOrganisms", Samples.ints [10; 9]%Z)]
           [PInt 0; PInt 1; PInt 2]).
  - left. reflexivity.
  - reflexivity.
  - reflexivity.
  - reflexivity.
Defined.

(** X6.  With an empty or absent ['time'] the loop body never runs: each
    conversion returns the frame with no rows and the single column
    [step], whatever else the ['data'] mapping holds. *)
Theorem no_rows_whatever_the_series P fields kvs data
    (HP : In (P, fields) projections)
    (Hdata : dict_lookup "data" kvs = Some (PDict data))
    (Htime : dict_get data "time" (PList []) = PList []) :
  P (PDict kvs) = Ok (mkDataFrame [("step", [])] 0).
Proof.
  rewrite (projections_are_project _ _ _ HP). unfold project.
  rewrite (open_data_mapping _ _ _ Hdata Htime). reflexivity.
Qed.

Lemma no_rows_whatever_the_series_witness :
  to_population_dataframe (PDict MoreSamples.null_series_no_rows) =
  Ok (mkDataFrame [("step", [])] 0).
Proof.
  apply (no_rows_whatever_the_series to_population_dataframe population_fields
           MoreSamples.null_series_no_rows
           [("time", PList []); ("foodCount", PNone)]).
  - left. reflexivity.
  - reflexivity.
  - reflexivity.
Defined.

(** X7.  For a document of arrays with at least one element in ['time'],
    the columns of the returned table are, in this order, [time], the
    conversion's fields as written in its record, and [step]. *)
Theorem columns_in_order P fields kvs data t ts
    (HP : In (P, fields) projections)
    (Hdata : dict_lookup "data" kvs = Some (PDict data))
    (Htime : dict_get data "time" (PList []) = PList (t :: ts))
    (Harr : arrays data fields = true) :
  exists df,
    P (PDict kvs) = Ok df /\
    columns df = ("time" :: map fst fields ++ ["step"])%list.
Proof.
  destruct (project_succeeds _ _ _ _ Hdata Htime Harr) as [df Hdf].
  rewrite <- (projections_are_project _ _ _ HP) in Hdf.
  exists df. split; [exact Hdf|].
  eapply columns_of_rows; eassumption.
Qed.

Lemma columns_in_order_witness :
  exists df,
    to_interactions_dataframe (PDict Samples.ragged) = Ok df /\
    columns df = ["time"; "combat_kills"; "cooperation_events";
                  "average_genome_length"; "step"].
Proof.
  apply (columns_in_order to_interactions_dataframe interactions_fields
           Samples.ragged
           [("time", Samples.ints [0; 1; 2]%Z);
            ("aliveOrganisms", Samples.ints [10; 9]%Z)]
           (PInt 0) [PInt 1; PInt 2]).
  - right. right. left. reflexivity.
  - reflexivity.
  - reflexivity.
  - reflexivity.
Defined.

Lemma series_at_same_get data data' key i :
  dict_get data key (PList []) = dict_get data' key (PList []) ->
  series_at data key i = series_at data' key i.
Proof. intros H. unfold series_at. rewrite H. reflexivity. Qed.

Lemma read_fields_same_get data data' fields i :
  (forall key, In key (map snd fields) ->
     dict_get data key (PList []) = dict_get data' key (PList [])) ->
  read_fields data fields i = read_fields data' fields i.
Proof.
  induction fields as [|[out key] rest IH]; simpl; intros H; [reflexivity|].
  rewrite (series_at_same_get data data' key i) by (apply H; left; reflexivity).
  rewrite IH by (intros k Hk; apply H; right; exact Hk).
  reflexivity.
Qed.

(** X8.  A conversion looks at nothing but ['time'] and the series it
    requests: two documents whose ['data'] mappings answer [get] alike on
    those keys get the same outcome, table or exception, whatever their
    other series and other top-level keys are. *)
Theorem conversion_reads_only_its_series P fields kvs kvs' data data'
    (HP : In (P, fields) projections)
    (Hdata : dict_lookup "data" kvs = Some (PDict data))
    (Hdata' : dict_lookup "data" kvs' = Some (PDict data'))
    (Htime : dict_get data "time" (PList []) = dict_get data' "time" (PList []))
    (Hseries : forall key, In key (map snd fields) ->
       dict_get data key (PList []) = dict_get data' key (PList [])) :
  P (PDict kvs) = P (PDict kvs').
Proof.
  rewrite !(projections_are_project _ _ _ HP). unfold project, open_data.
  simpl. rewrite Hdata, Hdata'. simpl. rewrite Htime.
  destruct (py_iter (dict_get data' "time" (PList []))) as [times|e]; simpl;
    [|reflexivity].
  rewrite (for_enumerate_ext (build_row data fields) (build_row data' fields)).
  - reflexivity.
  - intros j x _. unfold build_row.
    rewrite (read_fields_same_get data data' fields j Hseries). reflexivity.
Qed.

Lemma conversion_reads_only_its_series_witness :
  to_population_dataframe (PDict Samples.ragged) =
  to_population_dataframe (PDict MoreSamples.ragged_with_more).
Proof.
  apply (conversion_reads_only_its_series to_population_dataframe population_fields
           Samples.ragged MoreSamples.ragged_with_more
           [("time", Samples.ints [0; 1; 2]%Z);
            ("aliveOrganisms", Samples.ints [10; 9]%Z)]
           [("time", Samples.ints [0; 1; 2]%Z);
            ("aliveOrganisms", Samples.ints [10; 9]%Z);
            ("speciesCount", PNone)]).
  - left. reflexivity.
  - reflexivity.
  - reflexivity.
  - reflexivity.
  - intros key [H|[H|[H|[]]]]; subst key; reflexivity.
Defined.

(* ================================================================== *)
(** ** Further properties of the combined loader *)

Lemma io_bind_lift_ok {A B} (a : A) (k : A -> io B) :
  io_bind (io_lift (Ok a)) k = k a.
Proof. unfold io_bind, io_lift. destruct (k a). reflexivity. Qed.

Lemma attempt_ok_inv table m out df :
  attempt table m = (out, Ok df) ->
  (m = Ok df /\ out = []) \/
  (exists e msg,
     m = Raise e /\ caught e = Some msg /\ df = DataFrame_empty /\
     out = ["Warning: Could not load " ++ table ++ " data: " ++ msg]).
Proof.
  unfold attempt. destruct m as [d|e].
  - intros H. inversion H. left. split; reflexivity.
  - destruct (caught e) as [msg|] eqn:E; intros H; inversion H.
    right. exists e, msg. repeat split. exact E.
Qed.

Lemma attempt_raise_inv table m out e :
  attempt table m = (out, Raise e) ->
  m = Raise e /\ caught e = None /\ out = [].
Proof.
  unfold attempt. destruct m as [d|e'].
  - intros H. inversion H.
  - destruct (caught e') as [msg|] eqn:E; intros H; inversion H.
    subst. repeat split. exact E.
Qed.

Lemma caught_None_kind e : caught e = None -> downgraded_kind e = false.
Proof. destruct e; simpl; intros H; try discriminate; reflexivity. Qed.

Lemma caught_Some_kind e msg : caught e = Some msg -> downgraded_kind e = true.
Proof. destruct e; simpl; intros H; try discriminate; reflexivity. Qed.

Lemma prefix_app p rest : String.prefix p (p ++ rest) = true.
Proof.
  induction p as [|c p IH]; simpl.
  - destruct rest; reflexivity.
  - destruct (ascii_dec c c) as [_|Hne]; [exact IH|contradiction].
Qed.

Lemma attempt_lines table m :
  List.length (fst (attempt table m)) <= 1 /\
  Forall (fun line => String.prefix "Warning: Could not load " line = true)
         (fst (attempt table m)).
Proof.
  unfold attempt. destruct m as [df|e]; simpl.
  - split; [lia|constructor].
  - destruct (caught e) as [msg|]; simpl.
    + split; [lia|]. constructor; [|constructor].
      apply (prefix_app "Warning: Could not load ").
    + split; [lia|constructor].
Qed.

Section LoadAll.

Variable joinpath : string -> string -> string.
Variable fs : string -> option fs_node.
Variable json_loads : string -> string + pyval.

Local Abbreviation read := (load_statistics joinpath fs json_loads).
Local Abbreviation load_all := (load_all_data joinpath fs json_loads).

(** After a successful read, [load_all_data] is the three [try] blocks
    followed by [get_metadata]. *)
Lemma load_all_data_read self filename stats :
  read self filename = Ok stats ->
  load_all self filename =
  (pop <~ attempt "population" (to_population_dataframe stats) ;;
   spe <~ attempt "species" (to_species_dataframe stats) ;;
   int <~ attempt "interactions" (to_interactions_dataframe stats) ;;
   meta <~ io_lift (get_metadata stats) ;;
   io_lift (Ok (mkBundle pop spe int meta))).
Proof.
  intros Hread. unfold load_all_data. rewrite Hread.
  rewrite io_bind_lift_ok. reflexivity.
Qed.

Lemma load_all_data_ok_inv self filename stats out b :
  read self filename = Ok stats ->
  load_all self filename = (out, Ok b) ->
  exists o1 o2 o3,
    attempt "population" (to_population_dataframe stats) = (o1, Ok (population b)) /\
    attempt "species" (to_species_dataframe stats) = (o2, Ok (species b)) /\
    attempt "interactions" (to_interactions_dataframe stats) = (o3, Ok (interactions b)) /\
    get_metadata stats = Ok (metadata b) /\
    out = (o1 ++ o2 ++ o3)%list.
Proof.
  intros Hread H. rewrite (load_all_data_read _ _ _ Hread) in H.
  unfold io_bind, io_lift in H.
  destruct (attempt "population" (to_population_dataframe stats)) as [o1 [p|e]];
    [|discriminate].
  destruct (attempt "species" (to_species_dataframe stats)) as [o2 [s|e]];
    [|discriminate].
  destruct (attempt "interactions" (to_interactions_dataframe stats)) as [o3 [i|e]];
    [|discriminate].
  destruct (get_metadata stats) as [m|e]; [|discriminate].
  simpl in H. inversion H; subst. simpl.
  exists o1, o2, o3. rewrite app_nil_r. repeat split.
Qed.

Lemma load_all_data_raise_inv self filename stats out e :
  read self filename = Ok stats ->
  load_all self filename = (out, Raise e) ->
  (to_population_dataframe stats = Raise e /\ caught e = None) \/
  (to_species_dataframe stats = Raise e /\ caught e = None) \/
  (to_interactions_dataframe stats = Raise e /\ caught e = None) \/
  get_metadata stats = Raise e.
Proof.
  intros Hread H. rewrite (load_all_data_read _ _ _ Hread) in H.
  unfold io_bind, io_lift in H.
  destruct (attempt "population" (to_population_dataframe stats)) as [o1 [p|e1]] eqn:E1.
  2:{ inversion H; subst. destruct (attempt_raise_inv _ _ _ _ E1) as [Hm [Hc _]]. auto. }
  destruct (attempt "species" (to_species_dataframe stats)) as [o2 [s|e2]] eqn:E2.
  2:{ inversion H; subst. destruct (attempt_raise_inv _ _ _ _ E2) as [Hm [Hc _]]. auto. }
  destruct (attempt "interactions" (to_interactions_dataframe stats)) as [o3 [i|e3]] eqn:E3.
  2:{ inversion H; subst. destruct (attempt_raise_inv _ _ _ _ E3) as [Hm [Hc _]]. auto. }
  destruct (get_metadata stats) as [m|e4]; simpl in H; inversion H; subst.
  right. right. right. reflexivity.
Qed.

Lemma load_all_data_continues self filename stats o1 o2 o3 p s i m :
  read self filename = Ok stats ->
  attempt "population" (to_population_dataframe stats) = (o1, Ok p) ->
  attempt "species" (to_species_dataframe stats) = (o2, Ok s) ->
  attempt "interactions" (to_interactions_dataframe stats) = (o3, Ok i) ->
  get_metadata stats = Ok m ->
  load_all self filename = ((o1 ++ o2 ++ o3)%list, Ok (mkBundle p s i m)).
Proof.
  intros Hread H1 H2 H3 Hm. rewrite (load_all_data_read _ _ _ Hread).
  unfold io_bind, io_lift. rewrite H1, H2, H3, Hm. simpl.
  rewrite app_nil_r. reflexivity.
Qed.

Lemma attempt_entry table P fields stats out df :
  In (P, fields) projections ->
  attempt table (P stats) = (out, Ok df) ->
  (forall d, P stats = Ok d -> df = d) /\
  (df = DataFrame_empty <-> exists e, P stats = Raise e) /\
  (out = [] <-> exists d, P stats = Ok d).
Proof.
  intros HP H.
  destruct (attempt_ok_inv _ _ _ _ H) as [[Hm Ho]|[e [msg [Hm [_ [Hdf Ho]]]]]].
  - split; [|split].
    + intros d Hd. rewrite Hm in Hd. inversion Hd. reflexivity.
    + split.
      * intros Hempty. exfalso.
        rewrite (projections_are_project _ _ _ HP) in Hm.
        exact (project_not_empty_frame _ _ _ Hm Hempty).
      * intros [e He]. rewrite Hm in He. discriminate He.
    + split; [intros _; exists df; exact Hm|intros _; exact Ho].
  - split; [|split].
    + intros d Hd. rewrite Hm in Hd. discriminate Hd.
    + split; [intros _; exists e; exact Hm|intros _; exact Hdf].
    + split.
      * intros Hnil. rewrite Hnil in Ho. discriminate Ho.
      * intros [d Hd]. rewrite Hm in Hd. discriminate Hd.
Qed.

(** X9.  After a successful read, [load_all_data] returns a bundle exactly
    when the document is a JSON object and every exception its
    conversions raise is a [ValueError], [KeyError] or [IndexError]. *)
Theorem bundle_iff_only_downgraded self filename stats
    (Hread : read self filename = Ok stats) :
  (exists out b, load_all self filename = (out, Ok b)) <->
  ((exists kvs, stats = PDict kvs) /\
   forall P fields e,
     In (P, fields) projections -> P stats = Raise e -> downgraded_kind e = true).
Proof.
  split.
  - intros [out [b H]].
    destruct (load_all_data_ok_inv _ _ _ _ _ Hread H)
      as [o1 [o2 [o3 [H1 [H2 [H3 [Hm _]]]]]]].
    split.
    + destruct stats; simpl in Hm; try discriminate. eexists. reflexivity.
    + intros P fields e HP He.
      assert (Hatt : exists table o df, attempt table (P stats) = (o, Ok df)).
      { destruct HP as [E|[E|[E|[]]]]; inversion E; subst; eauto. }
      destruct Hatt as [table [o [df Hatt]]].
      destruct (attempt_ok_inv _ _ _ _ Hatt) as [[Hok _]|[e' [msg [Hr [Hc _]]]]].
      * rewrite Hok in He. discriminate He.
      * rewrite Hr in He. inversion He; subst e'.
        eapply caught_Some_kind. exact Hc.
  - intros [[kvs Hk] Hall]. subst stats.
    destruct (attempt_continues "population" (to_population_dataframe (PDict kvs)))
      as [o1 [p H1]].
    { intros e. apply (Hall _ population_fields). left. reflexivity. }
    destruct (attempt_continues "species" (to_species_dataframe (PDict kvs)))
      as [o2 [s H2]].
    { intros e. apply (Hall _ species_fields). right. left. reflexivity. }
    destruct (attempt_continues "interactions" (to_interactions_dataframe (PDict kvs)))
      as [o3 [i H3]].
    { intros e. apply (Hall _ interactions_fields). right. right. left. reflexivity. }
    eexists. eexists.
    eapply load_all_data_continues; try eassumption. reflexivity.
Qed.

(** X10.  When [load_all_data] returns a bundle: an entry is the table the
    conversion returned, if it returned one; an entry is the frame
    without columns exactly when its conversion raised; the metadata entry
    is what [get_metadata] returns; and nothing was printed exactly when
    all three conversions returned a table. *)
Theorem bundle_entries self filename stats out b
    (Hread : read self filename = Ok stats)
    (Hall : load_all self filename = (out, Ok b)) :
  ((forall df, to_population_dataframe stats = Ok df -> population b = df) /\
   (population b = DataFrame_empty <->
      exists e, to_population_dataframe stats = Raise e)) /\
  ((forall df, to_species_dataframe stats = Ok df -> species b = df) /\
   (species b = DataFrame_empty <->
      exists e, to_species_dataframe stats = Raise e)) /\
  ((forall df, to_interactions_dataframe stats = Ok df -> interactions b = df) /\
   (interactions b = DataFrame_empty <->
      exists e, to_interactions_dataframe stats = Raise e)) /\
  get_metadata stats = Ok (metadata b) /\
  (out = [] <->
     (exists df, to_population_dataframe stats = Ok df) /\
     (exists df, to_species_dataframe stats = Ok df) /\
     (exists df, to_interactions_dataframe stats = Ok df)).
Proof.
  destruct (load_all_data_ok_inv _ _ _ _ _ Hread Hall)
    as [o1 [o2 [o3 [H1 [H2 [H3 [Hm Hout]]]]]]].
  destruct (attempt_entry "population" to_population_dataframe population_fields
              stats o1 _ (or_introl eq_refl) H1) as [Hp1 [Hp2 Hp3]].
  destruct (attempt_entry "species" to_species_dataframe species_fields
              stats o2 _ (or_intror (or_introl eq_refl)) H2) as [Hs1 [Hs2 Hs3]].
  destruct (attempt_entry "interactions" to_interactions_dataframe interactions_fields
              stats o3 _ (or_intror (or_intror (or_introl eq_refl))) H3)
    as [Hi1 [Hi2 Hi3]].
  split; [split; [exact Hp1|exact Hp2]|].
  split; [split; [exact Hs1|exact Hs2]|].
  split; [split; [exact Hi1|exact Hi2]|].
  split; [exact Hm|]. subst out. split.
  - intros Hnil. apply app_eq_nil in Hnil. destruct Hnil as [Hn1 Hnil].
    apply app_eq_nil in Hnil. destruct Hnil as [Hn2 Hn3].
    split; [apply Hp3; exact Hn1|].
    split; [apply Hs3; exact Hn2|apply Hi3; exact Hn3].
  - intros [Hp [Hs Hi]].
    apply Hp3 in Hp. apply Hs3 in Hs. apply Hi3 in Hi. subst. reflexivity.
Qed.

(** X11.  After a successful read, the only exceptions [load_all_data]
    lets out are [TypeError] and [AttributeError]. *)
Theorem load_all_raises_only self filename stats out e
    (Hread : load_statistics joinpath fs json_loads self filename = Ok stats)
    (Hraise : load_all_data joinpath fs json_loads self filename = (out, Raise e)) :
  e = TypeError \/ e = AttributeError.
Proof.
  assert (Hconv : forall fields, project fields stats = Raise e ->
                    caught e = None -> e = TypeError \/ e = AttributeError).
  { intros fields He Hc.
    destruct (project_errors _ _ _ He) as [Hv|[Ht|[Ha|[i Hk]]]]; subst;
      try discriminate; auto. }
  destruct (load_all_data_raise_inv _ _ _ _ _ Hread Hraise)
    as [[He Hc]|[[He Hc]|[[He Hc]|He]]].
  - rewrite population_is_project in He. eapply Hconv; eassumption.
  - rewrite species_is_project in He. eapply Hconv; eassumption.
  - rewrite interactions_is_project in He. eapply Hconv; eassumption.
  - destruct stats; simpl in He; inversion He; auto.
Qed.

Lemma project_open_raise fields stats e :
  open_data stats = Raise e -> project fields stats = Raise e.
Proof. intros H. unfold project. rewrite H. reflexivity. Qed.

(** X12.  A file whose JSON value is not an object never gives a bundle:
    [load_all_data] either raises [TypeError] at once, or prints the three
    warnings and then raises [AttributeError] from [get_metadata]. *)
Theorem non_object_document self filename stats
    (Hread : load_statistics joinpath fs json_loads self filename = Ok stats)
    (Hnot : forall kvs, stats <> PDict kvs) :
  load_all_data joinpath fs json_loads self filename = ([], Raise TypeError) \/
  load_all_data joinpath fs json_loads self filename =
    (["Warning: Could not load population data: No data found in statistics";
      "Warning: Could not load species data: No data found in statistics";
      "Warning: Could not load interactions data: No data found in statistics"],
     Raise AttributeError).
Proof.
  assert (Hopen : open_data stats = Raise TypeError \/
                  (open_data stats = Raise (ValueError "No data found in statistics") /\
                   get_metadata stats = Raise AttributeError)).
  { unfold open_data.
    destruct stats as [| | | |s|l|d]; simpl; auto.
    - destruct (is_substring "data" s); simpl; auto.
    - destruct (existsb (is_str "data") l); simpl; auto.
    - exfalso. apply (Hnot d). reflexivity. }
  rewrite (load_all_data_read _ _ _ Hread).
  rewrite population_is_project, species_is_project, interactions_is_project.
  destruct Hopen as [Ht|[Hv Hm]].
  - left. rewrite (project_open_raise population_fields _ _ Ht). reflexivity.
  - right.
    rewrite (project_open_raise population_fields _ _ Hv),
            (project_open_raise species_fields _ _ Hv),
            (project_open_raise interactions_fields _ _ Hv), Hm.
    reflexivity.
Qed.

(** X13.  Whatever the file, [load_all_data] prints at most three lines,
    and each printed line starts with ["Warning: Could not load "]. *)
Theorem at_most_three_warnings self filename :
  List.length (fst (load_all_data joinpath fs json_loads self filename)) <= 3 /\
  Forall (fun line => String.prefix "Warning: Could not load " line = true)
         (fst (load_all_data joinpath fs json_loads self filename)).
Proof.
  destruct (read self filename) as [stats|e] eqn:Hread.
  - rewrite (load_all_data_read _ _ _ Hread). unfold io_bind, io_lift.
    destruct (attempt_lines "population" (to_population_dataframe stats)) as [L1 F1].
    destruct (attempt_lines "species" (to_species_dataframe stats)) as [L2 F2].
    destruct (attempt_lines "interactions" (to_interactions_dataframe stats)) as [L3 F3].
    destruct (attempt "population" (to_population_dataframe stats)) as [o1 [p|e1]];
      simpl in *; [|split; [lia|exact F1]].
    destruct (attempt "species" (to_species_dataframe stats)) as [o2 [s|e2]];
      simpl in *;
      [|split; [rewrite length_app; lia|apply Forall_app; split; assumption]].
    destruct (attempt "interactions" (to_interactions_dataframe stats)) as [o3 [i|e3]];
      simpl in *;
      [|split; [rewrite !length_app; lia
               |repeat (apply Forall_app; split); assumption]].
    destruct (get_metadata stats) as [m|e4]; simpl;
      (split; [rewrite !length_app; simpl; lia
              |repeat (apply Forall_app; split); try assumption; constructor]).
  - unfold load_all_data. rewrite Hread. simpl. split; [lia|constructor].
Qed.

(** X14.  A file holding a document of arrays loads without a warning:
    the bundle holds the three tables the direct calls return, all with
    one row per element of ['time'], and the document's metadata. *)
Theorem well_formed_file_loads_silently self filename kvs data ts
    (Hread : read self filename = Ok (PDict kvs))
    (Hdata : dict_lookup "data" kvs = Some (PDict data))
    (Htime : dict_get data "time" (PList []) = PList ts)
    (Harr : arrays data all_fields = true) :
  exists p s i,
    to_population_dataframe (PDict kvs) = Ok p /\
    to_species_dataframe (PDict kvs) = Ok s /\
    to_interactions_dataframe (PDict kvs) = Ok i /\
    load_all self filename =
      ([], Ok (mkBundle p s i (dict_get kvs "metadata" (PDict [])))) /\
    df_len p = List.length ts /\
    df_len s = List.length ts /\
    df_len i = List.length ts.
Proof.
  destruct (project_succeeds population_fields _ _ _ Hdata Htime) as [p Hp].
  { apply (arrays_all data to_population_dataframe); [left; reflexivity|exact Harr]. }
  destruct (project_succeeds species_fields _ _ _ Hdata Htime) as [s Hs].
  { apply (arrays_all data to_species_dataframe);
      [right; left; reflexivity|exact Harr]. }
  destruct (project_succeeds interactions_fields _ _ _ Hdata Htime) as [i Hi].
  { apply (arrays_all data to_interactions_dataframe);
      [right; right; left; reflexivity|exact Harr]. }
  exists p, s, i.
  rewrite population_is_project, species_is_project, interactions_is_project.
  split; [exact Hp|]. split; [exact Hs|]. split; [exact Hi|]. split.
  - apply (load_all_data_continues self filename (PDict kvs) [] [] []).
    + exact Hread.
    + rewrite population_is_project, Hp. reflexivity.
    + rewrite species_is_project, Hs. reflexivity.
    + rewrite interactions_is_project, Hi. reflexivity.
    + reflexivity.
  - split; [|split]; eapply table_len; eassumption.
Qed.

End LoadAll.

(* ================================================================== *)
(** ** The further properties in the sample worlds *)

Module MoreWorld.

Lemma bundle_iff_only_downgraded_witness :
  (exists out b,
     load_all_data Samples.joinpath Samples.fs Samples.json_loads
       Samples.loader "dict_series.json" = (out, Ok b)) <->
  ((exists kvs, PDict Samples.dict_series = PDict kvs) /\
   forall P fields e,
     In (P, fields) projections ->
     P (PDict Samples.dict_series) = Raise e -> downgraded_kind e = true).
Proof.
  apply (bundle_iff_only_downgraded Samples.joinpath Samples.fs Samples.json_loads
           Samples.loader "dict_series.json" (PDict Samples.dict_series)).
  reflexivity.
Defined.

Lemma bundle_entries_witness :
  let pop := mkDataFrame
               [("time", [PInt 0]); ("alive_organisms", [PNone]);
                ("food_count", [PNone]); ("average_energy", [PNone]);
                ("step", [PInt 0])] 1 in
  let int := mkDataFrame
               [("time", [PInt 0]); ("combat_kills", [PNone]);
                ("cooperation_events", [PNone]);
                ("average_genome_length", [PNone]);
                ("step", [PInt 0])] 1 in
  let b := mkBundle pop DataFrame_empty int (PDict []) in
  (species b = DataFrame_empty <->
     exists e, to_species_dataframe (PDict Samples.dict_series) = Raise e) /\
  (forall df, to_population_dataframe (PDict Samples.dict_series) = Ok df ->
     population b = df).
Proof.
  intros pop int b.
  destruct (bundle_entries Samples.joinpath Samples.fs Samples.json_loads
              Samples.loader "dict_series.json" (PDict Samples.dict_series)
              ["Warning: Could not load species data: 0"] b)
    as [[Hpop _] [[_ Hspe] _]].
  - reflexivity.
  - reflexivity.
  - split; [exact Hspe|exact Hpop].
Defined.

Lemma load_all_raises_only_witness :
  AttributeError = TypeError \/ AttributeError = AttributeError.
Proof.
  apply (load_all_raises_only Samples.joinpath Samples.fs Samples.json_loads
           Samples.loader "data5.json" (PDict Samples.data_not_mapping)
           [] AttributeError).
  - reflexivity.
  - reflexivity.
Defined.

Lemma non_object_document_witness :
  load_all_data Samples.joinpath MoreSamples.fs MoreSamples.json_loads
    MoreSamples.loader "list.json" = ([], Raise TypeError) \/
  load_all_data Samples.joinpath MoreSamples.fs MoreSamples.json_loads
    MoreSamples.loader "list.json" =
    (["Warning: Could not load population data: No data found in statistics";
      "Warning: Could not load species data: No data found in statistics";
      "Warning: Could not load interactions data: No data found in statistics"],
     Raise AttributeError).
Proof.
  apply (non_object_document Samples.joinpath MoreSamples.fs MoreSamples.json_loads
           MoreSamples.loader "list.json" MoreSamples.top_level_list).
  - reflexivity.
  - intros kvs H. discriminate H.
Defined.

Lemma well_formed_file_loads_silently_witness :
  exists p s i,
    to_population_dataframe (PDict Samples.ragged) = Ok p /\
    to_species_dataframe (PDict Samples.ragged) = Ok s /\
    to_interactions_dataframe (PDict Samples.ragged) = Ok i /\
    load_all_data Samples.joinpath Samples.fs Samples.json_loads
      Samples.loader "ragged.json" =
      ([], Ok (mkBundle p s i (PDict []))) /\
    df_len p = 3 /\ df_len s = 3 /\ df_len i = 3.
Proof.
  apply (well_formed_file_loads_silently
           Samples.joinpath Samples.fs Samples.json_loads
           Samples.loader "ragged.json" Samples.ragged
           [("time", Samples.ints [0; 1; 2]%Z);
            ("aliveOrganisms", Samples.ints [10; 9]%Z)]
           [PInt 0; PInt 1; PInt 2]).
  - reflexivity.
  - reflexivity.
  - reflexivity.
  - reflexivity.
Defined.

(** The other way for a top-level array to fail: it contains the string
    ["data"], so the guard passes and the subscript raises. *)
Example list_with_data_raises_at_once :
  load_all_data Samples.joinpath MoreSamples.fs MoreSamples.json_loads
    MoreSamples.loader "list_data.json" = ([], Raise TypeError).
Proof. reflexivity. Qed.

End MoreWorld.
